(** * Membership-aware cache and visibility engine of the communities app

    A shallow embedding of the Django services of [backend/communities]
    (services/community_service.py, services/post_service.py, signals.py,
    models/community.py, models/post.py, permissions/base_permissions.py,
    serializers/community_serializers.py, views/post_views.py) and the
    properties the design document states about them.

    The relational store is a record of finite maps, one per table; the
    Django cache is a record of finite maps, one per key pattern.  Every
    operation takes the store and the cache and returns its Python result
    with the store and the cache it leaves behind. *)

From Stdlib Require Import ZArith Ascii String.
From stdpp Require Import gmap strings list fin_maps sorting.

Local Open Scope string_scope.
Local Open Scope Z_scope.

(** ** Data model (models/community.py, models/post.py) *)

(** [Membership.ROLE_CHOICES] *)
Inductive Role := member | moderator | admin.

(** [Membership.STATUS_CHOICES] *)
Inductive Status := pending | approved | rejected.

(** [Post.VISIBILITY_CHOICES]; the last one is the string ['admin']. *)
Inductive Visibility := public | members | admin_only.

#[global] Instance Role_eq_dec : EqDecision Role.
Proof. solve_decision. Defined.
#[global] Instance Status_eq_dec : EqDecision Status.
Proof. solve_decision. Defined.
#[global] Instance Visibility_eq_dec : EqDecision Visibility.
Proof. solve_decision. Defined.

(** The choice value stored in the [role] column. *)
Definition role_value (r : Role) : string :=
  match r with member => "member" | moderator => "moderator" | admin => "admin" end.

(** [valid_roles = [choice[0] for choice in Membership.ROLE_CHOICES]] *)
Definition valid_roles : list string := role_value <$> [member; moderator; admin].

Definition role_of_value (s : string) : option Role :=
  if decide (s = "member") then Some member
  else if decide (s = "moderator") then Some moderator
  else if decide (s = "admin") then Some admin
  else None.

(** A row of the [Community] table.  [created_at], [updated_at] and the
    [members] relation (which is the [Membership] table) are left out. *)
Record Community := {
  community_id : nat;
  name : string;
  slug : string;
  description : string;
  short_description : string;
  category : string;
  tags : string;
  image : option string;
  banner : option string;
  creator_id : nat;
  rules : string;
  is_private : bool;
  requires_approval : bool;
  member_count_cache : Z
}.

(** A row of the [Membership] table.  The pair (user, community), which is
    [unique_together], is the key of the table below. *)
Record Membership := { role : Role; status : Status }.

(** A row of the [Post] table: the columns the services read or write.
    The [upvotes] many-to-many relation is the table [upvotes] below. *)
Record Post := {
  post_id : nat;
  post_community_id : nat;
  title : string;
  content : string;
  post_type : string;
  visibility : Visibility;
  is_pinned : bool;
  created_at : Z;
  upvote_count_cache : Z
}.

#[global] Instance Community_eq_dec : EqDecision Community.
Proof. solve_decision. Defined.
#[global] Instance Membership_eq_dec : EqDecision Membership.
Proof. solve_decision. Defined.
#[global] Instance Post_eq_dec : EqDecision Post.
Proof. solve_decision. Defined.

(** The persistent store.  [memberships] is keyed by (user id, community
    id); [upvotes] is the through table of [Post.upvotes], a set of
    (post id, user id) pairs. *)
Record DB := {
  communities : gmap nat Community;
  memberships : gmap (nat * nat) Membership;
  posts : gmap nat Post;
  upvotes : gset (nat * nat)
}.

Definition set_communities (f : gmap nat Community → gmap nat Community) (db : DB) : DB :=
  {| communities := f (communities db); memberships := memberships db;
     posts := posts db; upvotes := upvotes db |}.

Definition set_memberships (f : gmap (nat * nat) Membership → gmap (nat * nat) Membership)
    (db : DB) : DB :=
  {| communities := communities db; memberships := f (memberships db);
     posts := posts db; upvotes := upvotes db |}.

Definition set_posts (f : gmap nat Post → gmap nat Post) (db : DB) : DB :=
  {| communities := communities db; memberships := memberships db;
     posts := f (posts db); upvotes := upvotes db |}.

Definition set_upvotes (f : gset (nat * nat) → gset (nat * nat)) (db : DB) : DB :=
  {| communities := communities db; memberships := memberships db;
     posts := posts db; upvotes := f (upvotes db) |}.

Definition with_member_count_cache (n : Z) (c : Community) : Community :=
  {| community_id := community_id c; name := name c; slug := slug c;
     description := description c; short_description := short_description c;
     category := category c; tags := tags c; image := image c; banner := banner c;
     creator_id := creator_id c; rules := rules c; is_private := is_private c;
     requires_approval := requires_approval c; member_count_cache := n |}.

Definition with_upvote_count_cache (n : Z) (p : Post) : Post :=
  {| post_id := post_id p; post_community_id := post_community_id p;
     title := title p; content := content p; post_type := post_type p;
     visibility := visibility p; is_pinned := is_pinned p;
     created_at := created_at p; upvote_count_cache := n |}.

Definition with_role (r : Role) (m : Membership) : Membership :=
  {| role := r; status := status m |}.

(** ** The cache (django.core.cache)

    One finite map per key pattern the services use; a lookup that finds
    nothing is Python's [None].  Time-to-live is not modelled: an entry
    may be present or absent at any time, and may be stale. *)

(** Values stored under [membership_status:{community}:{user}]:
    [PostService.toggle_post_upvote] stores a boolean, and
    [CommunityViewSet.membership_status] stores the dictionary
    [{'is_member': .., 'status': .., 'role': ..}] under the same key. *)
Inductive StatusEntry :=
  | CachedFlag (is_member : bool)
  | CachedData (is_member : bool) (st : option Status) (r : option Role).

(** Python truthiness of such an entry: a non-empty dictionary is true. *)
Definition entry_truthy (e : StatusEntry) : bool :=
  match e with CachedFlag b => b | CachedData _ _ _ => true end.

(** Values stored under [post_creation_permission:{community}:{user}]:
    the membership object, or the string ["denied"]. *)
Inductive PermissionEntry := CachedMembership (m : Membership) | CachedDenied.

Record Cache := {
  (* membership_status:{community.id}:{user.id} *)
  membership_status : gmap (nat * nat) StatusEntry;
  (* community_membership:{community_slug}:{user.id} -> {'is_member', 'is_admin'} *)
  community_membership : gmap (string * nat) (bool * bool);
  (* post_creation_permission:{community.id}:{user.id} *)
  post_creation_permission : gmap (nat * nat) PermissionEntry;
  (* user_memberships:{user.id} *)
  user_memberships : gmap nat (list nat);
  (* user_admin_memberships:{user.id} *)
  user_admin_memberships : gmap nat (list nat);
  (* community:slug:{slug} *)
  community_by_slug : gmap string Community;
  (* community:is_member:{community.id}:{user.id} *)
  community_is_member : gmap (nat * nat) bool;
  (* community:membership_status:{community.id}:{user.id} *)
  community_membership_status : gmap (nat * nat) Status;
  (* community:membership_role:{community.id}:{user.id} *)
  community_membership_role : gmap (nat * nat) Role;
  (* post:upvote_count:{post.id} *)
  post_upvote_count : gmap nat Z;
  (* post:comment_count:{post.id} *)
  post_comment_count : gmap nat Z
}.

Definition empty_cache : Cache :=
  {| membership_status := ∅; community_membership := ∅; post_creation_permission := ∅;
     user_memberships := ∅; user_admin_memberships := ∅; community_by_slug := ∅;
     community_is_member := ∅; community_membership_status := ∅;
     community_membership_role := ∅; post_upvote_count := ∅; post_comment_count := ∅ |}.

Definition set_membership_status (f : gmap (nat * nat) StatusEntry → gmap (nat * nat) StatusEntry)
    (ch : Cache) : Cache :=
  {| membership_status := f (membership_status ch);
     community_membership := community_membership ch;
     post_creation_permission := post_creation_permission ch;
     user_memberships := user_memberships ch;
     user_admin_memberships := user_admin_memberships ch;
     community_by_slug := community_by_slug ch;
     community_is_member := community_is_member ch;
     community_membership_status := community_membership_status ch;
     community_membership_role := community_membership_role ch;
     post_upvote_count := post_upvote_count ch;
     post_comment_count := post_comment_count ch |}.

Definition set_community_membership
    (f : gmap (string * nat) (bool * bool) → gmap (string * nat) (bool * bool))
    (ch : Cache) : Cache :=
  {| membership_status := membership_status ch;
     community_membership := f (community_membership ch);
     post_creation_permission := post_creation_permission ch;
     user_memberships := user_memberships ch;
     user_admin_memberships := user_admin_memberships ch;
     community_by_slug := community_by_slug ch;
     community_is_member := community_is_member ch;
     community_membership_status := community_membership_status ch;
     community_membership_role := community_membership_role ch;
     post_upvote_count := post_upvote_count ch;
     post_comment_count := post_comment_count ch |}.

Definition set_post_creation_permission
    (f : gmap (nat * nat) PermissionEntry → gmap (nat * nat) PermissionEntry)
    (ch : Cache) : Cache :=
  {| membership_status := membership_status ch;
     community_membership := community_membership ch;
     post_creation_permission := f (post_creation_permission ch);
     user_memberships := user_memberships ch;
     user_admin_memberships := user_admin_memberships ch;
     community_by_slug := community_by_slug ch;
     community_is_member := community_is_member ch;
     community_membership_status := community_membership_status ch;
     community_membership_role := community_membership_role ch;
     post_upvote_count := post_upvote_count ch;
     post_comment_count := post_comment_count ch |}.

Definition set_user_memberships (f : gmap nat (list nat) → gmap nat (list nat))
    (ch : Cache) : Cache :=
  {| membership_status := membership_status ch;
     community_membership := community_membership ch;
     post_creation_permission := post_creation_permission ch;
     user_memberships := f (user_memberships ch);
     user_admin_memberships := user_admin_memberships ch;
     community_by_slug := community_by_slug ch;
     community_is_member := community_is_member ch;
     community_membership_status := community_membership_status ch;
     community_membership_role := community_membership_role ch;
     post_upvote_count := post_upvote_count ch;
     post_comment_count := post_comment_count ch |}.

Definition set_user_admin_memberships (f : gmap nat (list nat) → gmap nat (list nat))
    (ch : Cache) : Cache :=
  {| membership_status := membership_status ch;
     community_membership := community_membership ch;
     post_creation_permission := post_creation_permission ch;
     user_memberships := user_memberships ch;
     user_admin_memberships := f (user_admin_memberships ch);
     community_by_slug := community_by_slug ch;
     community_is_member := community_is_member ch;
     community_membership_status := community_membership_status ch;
     community_membership_role := community_membership_role ch;
     post_upvote_count := post_upvote_count ch;
     post_comment_count := post_comment_count ch |}.

Definition set_community_by_slug (f : gmap string Community → gmap string Community)
    (ch : Cache) : Cache :=
  {| membership_status := membership_status ch;
     community_membership := community_membership ch;
     post_creation_permission := post_creation_permission ch;
     user_memberships := user_memberships ch;
     user_admin_memberships := user_admin_memberships ch;
     community_by_slug := f (community_by_slug ch);
     community_is_member := community_is_member ch;
     community_membership_status := community_membership_status ch;
     community_membership_role := community_membership_role ch;
     post_upvote_count := post_upvote_count ch;
     post_comment_count := post_comment_count ch |}.

Definition set_community_is_member (f : gmap (nat * nat) bool → gmap (nat * nat) bool)
    (ch : Cache) : Cache :=
  {| membership_status := membership_status ch;
     community_membership := community_membership ch;
     post_creation_permission := post_creation_permission ch;
     user_memberships := user_memberships ch;
     user_admin_memberships := user_admin_memberships ch;
     community_by_slug := community_by_slug ch;
     community_is_member := f (community_is_member ch);
     community_membership_status := community_membership_status ch;
     community_membership_role := community_membership_role ch;
     post_upvote_count := post_upvote_count ch;
     post_comment_count := post_comment_count ch |}.

Definition set_community_membership_status
    (f : gmap (nat * nat) Status → gmap (nat * nat) Status) (ch : Cache) : Cache :=
  {| membership_status := membership_status ch;
     community_membership := community_membership ch;
     post_creation_permission := post_creation_permission ch;
     user_memberships := user_memberships ch;
     user_admin_memberships := user_admin_memberships ch;
     community_by_slug := community_by_slug ch;
     community_is_member := community_is_member ch;
     community_membership_status := f (community_membership_status ch);
     community_membership_role := community_membership_role ch;
     post_upvote_count := post_upvote_count ch;
     post_comment_count := post_comment_count ch |}.

Definition set_community_membership_role
    (f : gmap (nat * nat) Role → gmap (nat * nat) Role) (ch : Cache) : Cache :=
  {| membership_status := membership_status ch;
     community_membership := community_membership ch;
     post_creation_permission := post_creation_permission ch;
     user_memberships := user_memberships ch;
     user_admin_memberships := user_admin_memberships ch;
     community_by_slug := community_by_slug ch;
     community_is_member := community_is_member ch;
     community_membership_status := community_membership_status ch;
     community_membership_role := f (community_membership_role ch);
     post_upvote_count := post_upvote_count ch;
     post_comment_count := post_comment_count ch |}.

Definition set_post_counts (f : gmap nat Z → gmap nat Z) (g : gmap nat Z → gmap nat Z)
    (ch : Cache) : Cache :=
  {| membership_status := membership_status ch;
     community_membership := community_membership ch;
     post_creation_permission := post_creation_permission ch;
     user_memberships := user_memberships ch;
     user_admin_memberships := user_admin_memberships ch;
     community_by_slug := community_by_slug ch;
     community_is_member := community_is_member ch;
     community_membership_status := community_membership_status ch;
     community_membership_role := community_membership_role ch;
     post_upvote_count := f (post_upvote_count ch);
     post_comment_count := g (post_comment_count ch) |}.

(** ** Queries on the [Membership] table *)

(** [Membership.objects.filter(community=c, status='approved').count()] *)
Definition approved_member_count (db : DB) (cid : nat) : nat :=
  size (filter (λ kv : nat * nat * Membership, kv.1.2 = cid ∧ status kv.2 = approved)
               (memberships db)).

(** [Membership.objects.filter(community=c, role='admin').count()]: the
    status of the rows is not looked at. *)
Definition admin_count (db : DB) (cid : nat) : nat :=
  size (filter (λ kv : nat * nat * Membership, kv.1.2 = cid ∧ role kv.2 = admin)
               (memberships db)).

(** The number of approved admin rows of a community: the quantity the
    design document's last-admin invariant speaks about. *)
Definition approved_admin_count (db : DB) (cid : nat) : nat :=
  size (filter (λ kv : nat * nat * Membership,
                  kv.1.2 = cid ∧ role kv.2 = admin ∧ status kv.2 = approved)
               (memberships db)).

(** [community.members.count()]: every row of the through table. *)
Definition members_count (db : DB) (cid : nat) : nat :=
  size (filter (λ kv : nat * nat * Membership, kv.1.2 = cid) (memberships db)).

(** [Membership.objects.filter(user=u, community=c, status='approved').exists()] *)
Definition approved_membership_exists (db : DB) (user cid : nat) : bool :=
  match memberships db !! (user, cid) with
  | Some m => bool_decide (status m = approved)
  | None => false
  end.

(** [Membership.objects.filter(user=u, community=c, status='approved', role='admin').exists()] *)
Definition approved_admin_exists (db : DB) (user cid : nat) : bool :=
  match memberships db !! (user, cid) with
  | Some m => bool_decide (status m = approved) && bool_decide (role m = admin)
  | None => false
  end.

(** [list(Membership.objects.filter(user=u, status='approved')
          .values_list('community_id', flat=True))] *)
Definition approved_community_ids (db : DB) (user : nat) : list nat :=
  omap (λ kv : nat * nat * Membership,
          if decide (kv.1.1 = user ∧ status kv.2 = approved) then Some kv.1.2 else None)
       (map_to_list (memberships db)).

(** The same with [role='admin']. *)
Definition approved_admin_community_ids (db : DB) (user : nat) : list nat :=
  omap (λ kv : nat * nat * Membership,
          if decide (kv.1.1 = user ∧ status kv.2 = approved ∧ role kv.2 = admin)
          then Some kv.1.2 else None)
       (map_to_list (memberships db)).

(** ** Counter cache: models and signals (models/community.py, signals.py) *)

(** [Community.member_count] *)
Definition member_count (db : DB) (c : Community) : Z :=
  if 0 <? member_count_cache c then member_count_cache c
  else Z.of_nat (members_count db (community_id c)).

(** [instance.community] of a membership that was loaded from the table:
    the related row is fetched by its id.  The foreign key guarantees the
    row; the caller's object stands in for a missing one. *)
Definition instance_community (db : DB) (c : Community) : Community :=
  default c (communities db !! community_id c).

(** [update_community_member_count], the receiver of [post_save] and
    [post_delete] of [Membership]; [community] is [instance.community] and
    [user] is [instance.user.id].  The pattern deletions concern keys of
    decorators and of post lists, which no service modelled here reads. *)
Definition update_community_member_count (db : DB) (ch : Cache)
    (community : Community) (user : nat) : DB * Cache :=
  let cid := community_id community in
  let db' := set_communities
               (alter (with_member_count_cache (Z.of_nat (approved_member_count db cid))) cid)
               db in
  let ch1 := set_membership_status (delete (cid, user)) ch in
  let ch2 := set_post_creation_permission (delete (cid, user)) ch1 in
  let ch3 := set_community_membership (delete (slug community, user)) ch2 in
  (db', ch3).

(** [post.upvotes.count()] *)
Definition upvotes_count (db : DB) (pid : nat) : nat :=
  size (filter (λ pu : nat * nat, pu.1 = pid) (upvotes db)).

(** [update_post_upvote_count], the receiver of [m2m_changed] of
    [Post.upvotes.through], for the actions [post_add] and [post_remove]. *)
Definition update_post_upvote_count (db : DB) (instance : Post) : DB :=
  set_posts (alter (with_upvote_count_cache (Z.of_nat (upvotes_count db (post_id instance))))
                   (post_id instance)) db.

(** [post.upvotes.add(user)], with the signal it sends. *)
Definition upvotes_add (db : DB) (post : Post) (user : nat) : DB :=
  update_post_upvote_count (set_upvotes (λ s, {[ (post_id post, user) ]} ∪ s) db) post.

(** [post.upvotes.remove(user)], with the signal it sends. *)
Definition upvotes_remove (db : DB) (post : Post) (user : nat) : DB :=
  update_post_upvote_count (set_upvotes (λ s, s ∖ {[ (post_id post, user) ]}) db) post.

(** [post.save(update_fields=['upvote_count_cache'])]: [Post.save] writes
    the column of the row and deletes the post's counter keys (the key
    [post:top_comments:{id}] holds serializer data and is not modelled). *)
Definition save_upvote_count_cache (db : DB) (ch : Cache) (post : Post) : DB * Cache :=
  (set_posts (alter (with_upvote_count_cache (upvote_count_cache post)) (post_id post)) db,
   set_post_counts (delete (post_id post)) (delete (post_id post)) ch).

(** ** CommunityService (services/community_service.py) *)

(** [Membership.objects.create(user=.., community=.., role=.., status=..)]
    followed by the [post_save] signal. *)
Definition Membership_create (db : DB) (ch : Cache) (user : nat) (community : Community)
    (m : Membership) : DB * Cache :=
  update_community_member_count
    (set_memberships (insert (user, community_id community) m) db) ch community user.

(** [CommunityService.join_community] *)
Definition join_community (db : DB) (ch : Cache) (user : nat) (community : Community)
    : (option Membership * string) * DB * Cache :=
  if decide (is_Some (memberships db !! (user, community_id community))) then
    ((None, "You are already a member of this community."), db, ch)
  else if requires_approval community then
    let m := {| role := member; status := pending |} in
    let '(db', ch') := Membership_create db ch user community m in
    ((Some m, "Join request submitted. An admin will review your request."), db', ch')
  else
    let m := {| role := member; status := approved |} in
    let '(db', ch') := Membership_create db ch user community m in
    ((Some m, "You have successfully joined this community."), db', ch').

(** [CommunityService.leave_community].  The pattern deletions at the end
    concern keys no service modelled here reads. *)
Definition leave_community (db : DB) (ch : Cache) (user : nat) (community : Community)
    : (bool * string) * DB * Cache :=
  let cid := community_id community in
  match memberships db !! (user, cid) with
  | None => ((false, "You are not a member of this community."), db, ch)
  | Some membership =>
    if bool_decide (role membership = admin) && bool_decide (admin_count db cid = 1%nat) then
      ((false, "You cannot leave the community as you are the only admin. Please make another user an admin first."),
       db, ch)
    else
      (* membership.delete(), then the post_delete signal *)
      let '(db1, ch1) :=
        update_community_member_count (set_memberships (delete (user, cid)) db) ch
          (instance_community db community) user in
      (* cache.delete_many(user_cache_keys) *)
      let ch2 := set_membership_status (delete (cid, user)) ch1 in
      let ch3 := set_community_membership (delete (slug community, user)) ch2 in
      let ch4 := set_post_creation_permission (delete (cid, user)) ch3 in
      let ch5 := set_user_memberships (delete user) ch4 in
      let ch6 := set_user_admin_memberships (delete user) ch5 in
      (* Update community's member_count_cache *)
      let db2 :=
        if 0 <? member_count_cache community then
          set_communities
            (alter (with_member_count_cache (Z.max 0 (member_count_cache community - 1))) cid)
            db1
        else db1 in
      ((true, "You have successfully left this community."), db2, ch6)
  end.

(** [', '.join(l)] *)
Fixpoint join_strings (sep : string) (l : list string) : string :=
  match l with
  | [] => ""
  | [s] => s
  | s :: rest => s ++ sep ++ join_strings sep rest
  end.

(** [CommunityService.update_member_role]; [new_role] is the string of the
    request, [current_user] the id of the acting user. *)
Definition update_member_role (db : DB) (ch : Cache) (community : Community)
    (user_id : nat) (new_role : string) (current_user : nat)
    : (bool * string) * DB * Cache :=
  let cid := community_id community in
  match role_of_value new_role with
  | None =>
    ((false, "Invalid role. Must be one of: " ++ join_strings ", " valid_roles), db, ch)
  | Some r =>
    match memberships db !! (user_id, cid) with
    | None => ((false, "User is not a member of this community."), db, ch)
    | Some membership =>
      if bool_decide (user_id = current_user) && negb (bool_decide (new_role = "admin"))
         && bool_decide (admin_count db cid = 1%nat) then
        ((false, "You cannot change your role as you are the only admin."), db, ch)
      else
        (* membership.role = new_role; membership.save(), then the post_save signal *)
        let '(db', ch') :=
          update_community_member_count
            (set_memberships (insert (user_id, cid) (with_role r membership)) db) ch
            (instance_community db community) user_id in
        ((true, "User role updated to " ++ new_role ++ "."), db', ch')
    end
  end.

(** ** Strings of the query layer *)

(** Python truthiness of an optional string ([if community_slug:]). *)
Definition truthy (s : option string) : bool :=
  match s with
  | Some s => negb (bool_decide (s = ""))
  | None => false
  end.

(** [needle in hay] *)
Fixpoint str_contains (needle hay : string) : bool :=
  String.prefix needle hay ||
  match hay with
  | EmptyString => false
  | String _ rest => str_contains needle rest
  end.

Definition ascii_lower (a : ascii) : ascii :=
  let n := nat_of_ascii a in
  if (65 <=? n)%nat && (n <=? 90)%nat then ascii_of_nat (n + 32) else a.

Fixpoint str_lower (s : string) : string :=
  match s with
  | EmptyString => EmptyString
  | String a rest => String (ascii_lower a) (str_lower rest)
  end.

(** The [icontains] lookup, with the case folding of ASCII letters. *)
Definition icontains (field needle : string) : bool :=
  str_contains (str_lower needle) (str_lower field).

(** ** Community.get_by_slug (models/community.py) *)

(** [Community.objects.get(slug=s)]; [slug] is unique. *)
Definition community_with_slug (db : DB) (s : string) : option Community :=
  head (filter (λ c, slug c = s) ((map_to_list (communities db)).*2)).

Definition get_by_slug (db : DB) (ch : Cache) (s : string) : option Community * Cache :=
  if bool_decide (s = "") then (None, ch)
  else
    match community_by_slug ch !! s with
    | Some c => (Some c, ch)
    | None =>
      match community_with_slug db s with
      | Some c => (Some c, set_community_by_slug (insert s c) ch)
      | None => (None, ch)
      end
    end.

(** ** PostService.get_post_queryset (services/post_service.py) *)

(** [Membership.objects.filter(user=u, community__slug=s, status='approved').exists()] *)
Definition approved_membership_in_slug (db : DB) (user : nat) (s : string) : bool :=
  bool_decide (Exists (λ kv : nat * nat * Membership,
                         kv.1.1 = user ∧ status kv.2 = approved ∧
                         slug <$> communities db !! kv.1.2 = Some s)
                      (map_to_list (memberships db))).

Definition approved_admin_in_slug (db : DB) (user : nat) (s : string) : bool :=
  bool_decide (Exists (λ kv : nat * nat * Membership,
                         kv.1.1 = user ∧ status kv.2 = approved ∧ role kv.2 = admin ∧
                         slug <$> communities db !! kv.1.2 = Some s)
                      (map_to_list (memberships db))).

(** The block that logs the viewer's membership for a community slug: its
    only effect is the [community_membership] cache entry it may write. *)
Definition visibility_debug_logging (db : DB) (ch : Cache) (user : option nat) (s : string)
    : Cache :=
  match user with
  | None => ch
  | Some u =>
    match community_membership ch !! (s, u) with
    | Some _ => ch
    | None =>
      set_community_membership
        (insert (s, u) (approved_membership_in_slug db u s, approved_admin_in_slug db u s)) ch
    end
  end.

(** The [post_type] column, under a name the parameter below leaves free. *)
Definition type_of_post (p : Post) : string := post_type p.

(** [Post.objects.all().select_related('community', 'author')] with the
    filters on the community slug, the post type and the search term.  The
    join of [select_related] keeps the posts whose community row exists. *)
Definition base_queryset (db : DB) (community_slug post_type search : option string)
    : list Post :=
  let qs0 := filter (λ p, is_Some (communities db !! post_community_id p))
                    ((map_to_list (posts db)).*2) in
  let qs1 := if truthy community_slug
             then filter (λ p, slug <$> communities db !! post_community_id p = community_slug) qs0
             else qs0 in
  let qs2 := if truthy post_type
             then filter (λ p, Some (type_of_post p) = post_type) qs1
             else qs1 in
  if truthy search
  then filter (λ p, icontains (title p) (default "" search) = true ∨
                    icontains (content p) (default "" search) = true) qs2
  else qs2.

(** [list.remove(x)]: the first occurrence goes. *)
Fixpoint list_remove_first (x : nat) (l : list nat) : list nat :=
  match l with
  | [] => []
  | y :: rest => if decide (x = y) then rest else y :: list_remove_first x rest
  end.

(** The viewer's two lists of community ids: read from the cache or
    computed and cached, then checked against the table when a community
    slug is given.  Returns the working lists and the cache. *)
Definition visibility_sets (db : DB) (ch : Cache) (u : nat) (community_slug : option string)
    : (list nat * list nat) * Cache :=
  let '(member_communities, ch1) :=
    match user_memberships ch !! u with
    | Some l => (l, ch)
    | None =>
      let l := approved_community_ids db u in
      (l, set_user_memberships (insert u l) ch)
    end in
  let '(admin_communities, ch2) :=
    match user_admin_memberships ch1 !! u with
    | Some l => (l, ch1)
    | None =>
      let l := approved_admin_community_ids db u in
      (l, set_user_admin_memberships (insert u l) ch1)
    end in
  if truthy community_slug then
    match get_by_slug db ch2 (default "" community_slug) with
    | (Some community, ch3) =>
      let cid := community_id community in
      let is_member := approved_membership_exists db u cid in
      if is_member && negb (bool_decide (cid ∈ member_communities)) then
        (((member_communities ++ [cid])%list, admin_communities),
         set_user_memberships (delete u) ch3)
      else if negb is_member && bool_decide (cid ∈ member_communities) then
        ((list_remove_first cid member_communities,
          if bool_decide (cid ∈ admin_communities)
          then list_remove_first cid admin_communities else admin_communities),
         set_user_admin_memberships (delete u) (set_user_memberships (delete u) ch3))
      else ((member_communities, admin_communities), ch3)
    | (None, ch3) => ((member_communities, admin_communities), ch3)
    end
  else ((member_communities, admin_communities), ch2).

(** [Q(community__is_private=False, visibility='public')] *)
Definition public_communities_posts (db : DB) (p : Post) : Prop :=
  is_private <$> communities db !! post_community_id p = Some false ∧ visibility p = public.

(** [Q(community_id__in=member_communities, visibility__in=['public', 'members'])] *)
Definition member_communities_posts (member_communities : list nat) (p : Post) : Prop :=
  post_community_id p ∈ member_communities ∧ visibility p ∈ [public; members].

(** [Q(community_id__in=admin_communities)] *)
Definition admin_communities_posts (admin_communities : list nat) (p : Post) : Prop :=
  post_community_id p ∈ admin_communities.

#[global] Instance public_communities_posts_dec db p :
  Decision (public_communities_posts db p).
Proof. unfold public_communities_posts. apply _. Defined.
#[global] Instance member_communities_posts_dec l p :
  Decision (member_communities_posts l p).
Proof. unfold member_communities_posts. apply _. Defined.
#[global] Instance admin_communities_posts_dec l p :
  Decision (admin_communities_posts l p).
Proof. unfold admin_communities_posts. apply _. Defined.

(** [order_by('-is_pinned', '-created_at')] *)
Definition post_before (p q : Post) : bool :=
  if bool_decide (is_pinned p = is_pinned q) then bool_decide (created_at q ≤ created_at p)
  else is_pinned p.

Definition order_posts (l : list Post) : list Post :=
  merge_sort (λ p q, Is_true (post_before p q)) l.

(** The cache after the part of [get_post_queryset] that filters by slug. *)
Definition cache_after_slug_filter (db : DB) (ch : Cache) (user : option nat)
    (community_slug : option string) : Cache :=
  if truthy community_slug
  then visibility_debug_logging db ch user (default "" community_slug)
  else ch.

Definition get_post_queryset (db : DB) (ch : Cache) (user : option nat)
    (community_slug post_type search : option string) : list Post * Cache :=
  let ch0 := cache_after_slug_filter db ch user community_slug in
  let queryset := base_queryset db community_slug post_type search in
  match user with
  | None =>
    (order_posts (filter (public_communities_posts db) queryset), ch0)
  | Some u =>
    let '((member_communities, admin_communities), ch1) :=
      visibility_sets db ch0 u community_slug in
    (order_posts
       (remove_dups
          (filter (λ p, public_communities_posts db p ∨
                        member_communities_posts member_communities p ∨
                        admin_communities_posts admin_communities p) queryset)),
     ch1)
  end.

(** [PostService.validate_post_creation]: it raises [PermissionDenied] or
    returns [(True, membership)]. *)
Inductive Validation := Validated (m : Membership) | PermissionDenied (detail : string).

Definition validate_post_creation (db : DB) (ch : Cache) (user : nat) (community : Community)
    : Validation * DB * Cache :=
  let cid := community_id community in
  match post_creation_permission ch !! (cid, user) with
  | Some CachedDenied =>
    (PermissionDenied "You must be a member of this community to post.", db, ch)
  | Some (CachedMembership m) => (Validated m, db, ch)
  | None =>
    if bool_decide (creator_id community = user) then
      (* Membership.objects.get_or_create(user, community, defaults=admin/approved) *)
      match memberships db !! (user, cid) with
      | Some m =>
        (Validated m, db, set_post_creation_permission (insert (cid, user) (CachedMembership m)) ch)
      | None =>
        let m := {| role := admin; status := approved |} in
        let '(db', ch') := Membership_create db ch user community m in
        (Validated m, db',
         set_post_creation_permission (insert (cid, user) (CachedMembership m)) ch')
      end
    else
      match memberships db !! (user, cid) with
      | Some m =>
        if bool_decide (status m = approved) then
          (Validated m, db,
           set_post_creation_permission (insert (cid, user) (CachedMembership m)) ch)
        else
          (PermissionDenied "You must be a member of this community to post.", db,
           set_post_creation_permission (insert (cid, user) CachedDenied) ch)
      | None =>
        (PermissionDenied "You must be a member of this community to post.", db,
         set_post_creation_permission (insert (cid, user) CachedDenied) ch)
      end
  end.

(** [post.community.creator_id == user.id].  The foreign key guarantees the
    community row; a missing one counts as "not the creator". *)
Definition is_creator_of_post_community (db : DB) (post : Post) (user : nat) : bool :=
  match communities db !! post_community_id post with
  | Some c => bool_decide (creator_id c = user)
  | None => false
  end.

(** [PostService.toggle_post_upvote].  Besides the result, the store and
    the cache, it returns the [post] object, whose [upvote_count_cache]
    attribute it assigns. *)
Definition toggle_post_upvote (db : DB) (ch : Cache) (post : Post) (user : nat)
    : (bool * string) * DB * Cache * Post :=
  let key := (post_community_id post, user) in
  let '(is_member, ch1) :=
    match membership_status ch !! key with
    | Some e => (entry_truthy e, ch)
    | None =>
      let b := approved_membership_exists db user (post_community_id post) in
      (b, set_membership_status (insert key (CachedFlag b)) ch)
    end in
  let is_creator := is_creator_of_post_community db post user in
  if negb (is_member || is_creator) then
    ((false, "You must be a member of this community to upvote posts."), db, ch1, post)
  else if bool_decide ((post_id post, user) ∈ upvotes db) then
    let db1 := upvotes_remove db post user in
    let post' := with_upvote_count_cache (Z.max 0 (upvote_count_cache post - 1)) post in
    let '(db2, ch2) := save_upvote_count_cache db1 ch1 post' in
    ((false, "Upvote removed."), db2, ch2, post')
  else
    let db1 := upvotes_add db post user in
    let post' := with_upvote_count_cache (upvote_count_cache post + 1) post in
    let '(db2, ch2) := save_upvote_count_cache db1 ch1 post' in
    ((true, "Post upvoted."), db2, ch2, post').

(** ** Membership resolution (permissions/base_permissions.py,
       serializers/community_serializers.py)

    A viewer is [None] (anonymous) or [Some] user id. *)

(** [BaseCommunityPermission.is_community_admin] *)
Definition is_community_admin (db : DB) (user : option nat) (community : Community) : bool :=
  match user with
  | None => false
  | Some u =>
    if bool_decide (creator_id community = u) then true
    else
      match memberships db !! (u, community_id community) with
      | Some m => bool_decide (role m ∈ [admin; moderator]) && bool_decide (status m = approved)
      | None => false
      end
  end.

(** [BaseCommunityPermission.is_community_member] *)
Definition is_community_member (db : DB) (user : option nat) (community : Community) : bool :=
  match user with
  | None => false
  | Some u =>
    if bool_decide (creator_id community = u) then true
    else approved_membership_exists db u (community_id community)
  end.

(** [CommunitySerializer.get_is_member] *)
Definition get_is_member (db : DB) (ch : Cache) (user : option nat) (obj : Community)
    : bool * Cache :=
  match user with
  | None => (false, ch)
  | Some u =>
    if bool_decide (creator_id obj = u) then (true, ch)
    else
      match community_is_member ch !! (community_id obj, u) with
      | Some b => (b, ch)
      | None =>
        let b := bool_decide (is_Some (memberships db !! (u, community_id obj))) in
        (b, set_community_is_member (insert (community_id obj, u) b) ch)
      end
  end.

(** [CommunitySerializer.get_membership_status].  Storing [None] in the
    cache reads back as a miss, so only a found status is stored. *)
Definition get_membership_status (db : DB) (ch : Cache) (user : option nat) (obj : Community)
    : option Status * Cache :=
  match user with
  | None => (None, ch)
  | Some u =>
    if bool_decide (creator_id obj = u) then (Some approved, ch)
    else
      match community_membership_status ch !! (community_id obj, u) with
      | Some s => (Some s, ch)
      | None =>
        match memberships db !! (u, community_id obj) with
        | Some m =>
          (Some (status m),
           set_community_membership_status (insert (community_id obj, u) (status m)) ch)
        | None => (None, ch)
        end
      end
  end.

(** [CommunitySerializer.get_membership_role] *)
Definition get_membership_role (db : DB) (ch : Cache) (user : option nat) (obj : Community)
    : option Role * Cache :=
  match user with
  | None => (None, ch)
  | Some u =>
    if bool_decide (creator_id obj = u) then (Some admin, ch)
    else
      match community_membership_role ch !! (community_id obj, u) with
      | Some r => (Some r, ch)
      | None =>
        match memberships db !! (u, community_id obj) with
        | Some m =>
          (Some (role m),
           set_community_membership_role (insert (community_id obj, u) (role m)) ch)
        | None => (None, ch)
        end
      end
  end.

(** ** PostViewSet.retrieve (views/post_views.py) *)

Inductive Response :=
  | Response200 (data : Post)
  | Response403 (detail : string)
  | Response500 (detail : string).

Definition status_code (r : Response) : nat :=
  match r with
  | Response200 _ => 200
  | Response403 _ => 403
  | Response500 _ => 500
  end.

(** The membership lookup of [retrieve]:
    [Membership.objects.get(user=user, community=community, status='approved')]
    gives [(is_member, is_admin)]. *)
Definition retrieve_membership (db : DB) (user : nat) (community : Community) : bool * bool :=
  match memberships db !! (user, community_id community) with
  | Some m =>
    if bool_decide (status m = approved) then (true, bool_decide (role m = admin))
    else (false, false)
  | None => (false, false)
  end.

(** The visibility check of [retrieve] on a post that was found. *)
Definition retrieve_check (db : DB) (user : option nat) (post : Post) (community : Community)
    : Response :=
  match user with
  | None =>
    if negb (bool_decide (visibility post = public)) || is_private community then
      Response403 "You don't have permission to access this post."
    else Response200 post
  | Some u =>
    let '(is_member, is_admin) := retrieve_membership db u community in
    if negb is_member then
      if negb (bool_decide (visibility post = public)) || is_private community then
        Response403 "You don't have permission to access this post."
      else Response200 post
    else if negb is_admin && bool_decide (visibility post = admin_only) then
      Response403 "This post is only visible to community admins."
    else Response200 post
  end.

(** [PostViewSet.retrieve].  [self.get_object()] looks the primary key up
    in [get_queryset()], which is [PostService.get_post_queryset] with the
    slug of the URL and the [type] and [search] query parameters; its
    [Http404] is caught by the handler at the end of [retrieve]. *)
Definition retrieve (db : DB) (ch : Cache) (user : option nat)
    (community_slug : option string) (pk : nat) (type search : option string)
    : Response * Cache :=
  let '(queryset, ch') := get_post_queryset db ch user community_slug type search in
  match head (filter (λ p, post_id p = pk) queryset) with
  | None => (Response500 "An error occurred: No Post matches the given query.", ch')
  | Some post =>
    match communities db !! post_community_id post with
    | None =>
      (* not reached: the queryset joins the community row *)
      (Response500 "An error occurred: Post has no community.", ch')
    | Some community => (retrieve_check db user post community, ch')
    end
  end.

(** ** CommunityService.update_community_with_lock *)

(** The [update_data] dictionary, read at the keys the function looks at:
    a field is [None] when the key is absent.  For [image] and [banner],
    [Some None] is a key that is present with the value [None]. *)
Record UpdateData := {
  upd_name : option string;
  upd_description : option string;
  upd_short_description : option string;
  upd_category : option string;
  upd_tags : option string;
  upd_rules : option string;
  upd_is_private : option bool;
  upd_requires_approval : option bool;
  upd_image : option (option string);
  upd_banner : option (option string)
}.

(** The [setattr] loop over the allow-listed fields and the two file fields. *)
Definition apply_update_data (c : Community) (d : UpdateData) : Community :=
  {| community_id := community_id c;
     name := default (name c) (upd_name d);
     slug := slug c;
     description := default (description c) (upd_description d);
     short_description := default (short_description c) (upd_short_description d);
     category := default (category c) (upd_category d);
     tags := default (tags c) (upd_tags d);
     image := match upd_image d with Some (Some f) => Some f | _ => image c end;
     banner := match upd_banner d with Some (Some f) => Some f | _ => banner c end;
     creator_id := creator_id c;
     rules := default (rules c) (upd_rules d);
     is_private := default (is_private c) (upd_is_private d);
     requires_approval := default (requires_approval c) (upd_requires_approval d);
     member_count_cache := member_count_cache c |}.

(** The [id] of a community object, under a name the parameter below
    leaves free. *)
Definition id_of_community (c : Community) : nat := community_id c.

(** What [community.save()] comes back with: the saved object with the
    store and the cache after the write and its receivers, or one of the
    two exception classes the function catches, with [str(e)]. *)
Inductive SaveOutcome :=
  | Saved (community : Community) (db : DB) (ch : Cache)
  | RaisedIntegrityError (e : string) (ch : Cache)
  | RaisedException (e : string) (ch : Cache).

Section UpdateWithLock.

(** [community.save()]: the model's [save] (slug and short description
    defaults, cache key deletion), the database write under the row lock
    and the [post_save] receivers.  Whether the database accepts the row
    is the store's answer. *)
Variable Community_save : DB → Cache → Community → SaveOutcome.

(** [Membership.objects.get(community=community, user=user, role='admin')]
    finds a row. *)
Definition admin_membership_exists (db : DB) (user cid : nat) : bool :=
  match memberships db !! (user, cid) with
  | Some m => bool_decide (role m = admin)
  | None => false
  end.

Definition update_community_with_lock (db : DB) (ch : Cache) (community_id : nat)
    (update_data : UpdateData) (user : nat)
    : (option Community * option string) * DB * Cache :=
  match communities db !! community_id with
  | None => ((None, Some "Community not found."), db, ch)
  | Some community =>
    if negb (bool_decide (creator_id community = user))
       && negb (admin_membership_exists db user (id_of_community community)) then
      ((None, Some "You don't have permission to update this community."), db, ch)
    else
      match Community_save db ch (apply_update_data community update_data) with
      | Saved community' db' ch' =>
        ((Some community', None), db', set_community_by_slug (delete (slug community')) ch')
      | RaisedIntegrityError e ch' =>
        if str_contains "communities_community_name_key" e then
          ((None, Some "A community with this name already exists."), db, ch')
        else ((None, Some ("Database error: " ++ e)), db, ch')
      | RaisedException e ch' =>
        ((None, Some ("Error updating community: " ++ e)), db, ch')
      end
  end.

End UpdateWithLock.

(** ** The design document's membership resolution and decision table

    These follow the words of sections 4.3 and 4.4 of the design document;
    the theorems below compare the services with them. *)

(** The result of [resolve(userId, community)]. *)
Record Resolution := {
  isMember : bool;
  resolved_status : option Status;
  resolved_role : option Role
}.

Definition not_a_member : Resolution :=
  {| isMember := false; resolved_status := None; resolved_role := None |}.

(** Rule 2 of section 4.3: the approved [Membership] row of the pair, if
    there is one. *)
Definition resolve_rows (db : DB) (user : option nat) (cid : nat) : Resolution :=
  match user with
  | None => not_a_member
  | Some u =>
    match memberships db !! (u, cid) with
    | Some m =>
      if bool_decide (status m = approved)
      then {| isMember := true; resolved_status := Some approved; resolved_role := Some (role m) |}
      else not_a_member
    | None => not_a_member
    end
  end.

(** Section 4.3 in full: rule 1, the creator fallback, comes first. *)
Definition resolve (db : DB) (user : option nat) (community : Community) : Resolution :=
  match user with
  | None => not_a_member
  | Some u =>
    if bool_decide (creator_id community = u)
    then {| isMember := true; resolved_status := Some approved; resolved_role := Some admin |}
    else resolve_rows db user (community_id community)
  end.

(** The viewer states of the decision table of section 4.4. *)
Inductive ViewerState :=
  | Unauthenticated
  | NotMember
  | ApprovedMember
  | AdminOrCreator.

Definition viewer_state (user : option nat) (r : Resolution) : ViewerState :=
  match user with
  | None => Unauthenticated
  | Some _ =>
    if isMember r then
      if bool_decide (resolved_role r = Some admin) then AdminOrCreator else ApprovedMember
    else NotMember
  end.

(** The decision table of section 4.4, row by row. *)
Definition allowed (v : ViewerState) (c_is_private : bool) (p_visibility : Visibility) : bool :=
  match v, c_is_private, p_visibility with
  | Unauthenticated, false, public => true
  | Unauthenticated, false, (members | admin_only) => false
  | Unauthenticated, true, _ => false
  | NotMember, false, public => true
  | NotMember, false, (members | admin_only) => false
  | NotMember, true, _ => false
  | ApprovedMember, _, (public | members) => true
  | ApprovedMember, _, admin_only => false
  | AdminOrCreator, _, _ => true
  end.


(** The table applied to the [Membership] rows alone: the creator is a
    viewer like any other. *)
Definition visible_by_rows (db : DB) (viewer : option nat) (p : Post) : bool :=
  match communities db !! post_community_id p with
  | Some c =>
    allowed (viewer_state viewer (resolve_rows db viewer (post_community_id p)))
            (is_private c) (visibility p)
  | None => false
  end.

(** Every community row sits under its own id. *)
Definition communities_keyed (db : DB) : Prop :=
  ∀ k c, communities db !! k = Some c → community_id c = k.

(** The viewer's two cached id lists are absent, or hold the ids the
    [Membership] table gives at the time of the request. *)
Definition viewer_sets_fresh (db : DB) (ch : Cache) (viewer : option nat) : Prop :=
  match viewer with
  | None => True
  | Some u =>
    (∀ l, user_memberships ch !! u = Some l →
          ∀ cid, cid ∈ l ↔ approved_membership_exists db u cid = true)
    ∧ (∀ l, user_admin_memberships ch !! u = Some l →
            ∀ cid, cid ∈ l ↔ approved_admin_exists db u cid = true)
  end.

(** ** Example states *)

Definition a_community (cid creator : nat) (s : string) (private approval : bool) (n : Z)
    : Community :=
  {| community_id := cid; name := s; slug := s; description := ""; short_description := "";
     category := "other"; tags := ""; image := None; banner := None; creator_id := creator;
     rules := ""; is_private := private; requires_approval := approval;
     member_count_cache := n |}.

Definition a_post (pid cid : nat) (v : Visibility) (n : Z) : Post :=
  {| post_id := pid; post_community_id := cid; title := "t"; content := "c";
     post_type := "discussion"; visibility := v; is_pinned := false; created_at := 0;
     upvote_count_cache := n |}.

(** Scenario B of the design document: community [c2], private, created by
    user 7, who has no [Membership] row; one members-only post. *)
Definition c2 : Community := a_community 2 7 "c2" true false 0.
Definition p1 : Post := a_post 1 2 members 0.
Definition db_creator_without_row : DB :=
  {| communities := {[ 2%nat := c2 ]}; memberships := ∅; posts := {[ 1%nat := p1 ]};
     upvotes := ∅ |}.

(** Scenario A of the design document: community [c], private, with the
    creator's admin row and one approved member, user 1; one members-only
    post.  User 2 is not a member. *)
Definition c1 : Community := a_community 1 9 "c" true false 2.
Definition p2 : Post := a_post 5 1 members 0.
Definition db_scenario_A : DB :=
  {| communities := {[ 1%nat := c1 ]};
     memberships := {[ (9%nat, 1%nat) := {| role := admin; status := approved |};
                       (1%nat, 1%nat) := {| role := member; status := approved |} ]};
     posts := {[ 5%nat := p2 ]};
     upvotes := ∅ |}.

(** Every post row sits under its own id. *)
Definition posts_keyed (db : DB) : Prop :=
  ∀ k p, posts db !! k = Some p → post_id p = k.

(** Every admin-role row of the community is an approved one. *)
Definition all_admin_rows_approved (db : DB) (cid : nat) : Prop :=
  ∀ u m, memberships db !! (u, cid) = Some m → role m = admin → status m = approved.

(** A community whose only admin is user 1; user 2 is a moderator. *)
Definition db_single_admin : DB :=
  {| communities := {[ 1%nat := c1 ]};
     memberships := {[ (1%nat, 1%nat) := {| role := admin; status := approved |};
                       (2%nat, 1%nat) := {| role := moderator; status := approved |} ]};
     posts := ∅;
     upvotes := ∅ |}.

(** The same community after user 3 was given the admin role while their
    join request was still pending. *)
Definition db_pending_admin : DB :=
  {| communities := {[ 1%nat := c1 ]};
     memberships := {[ (1%nat, 1%nat) := {| role := admin; status := approved |};
                       (3%nat, 1%nat) := {| role := admin; status := pending |} ]};
     posts := ∅;
     upvotes := ∅ |}.


(** The persisted [upvote_count_cache] of a post. *)
Definition persisted_upvote_count (db : DB) (pid : nat) : option Z :=
  upvote_count_cache <$> posts db !! pid.

(** ** CommunityViewSet.membership_status (views/community_views.py)

    The view answers with the cached value when it is true, and otherwise
    stores its answer, a dictionary, under
    [membership_status:{community.id}:{user.id}]: the key under which
    [toggle_post_upvote] keeps a boolean. *)
Definition membership_status_view (db : DB) (ch : Cache) (user : option nat)
    (community : Community) : StatusEntry * Cache :=
  match user with
  | None => (CachedData false None None, ch)
  | Some u =>
    let key := (community_id community, u) in
    let answer (data : StatusEntry) := (data, set_membership_status (insert key data) ch) in
    match membership_status ch !! key with
    | Some e =>
      if entry_truthy e then (e, ch)
      else if bool_decide (creator_id community = u)
      then answer (CachedData true (Some approved) (Some admin))
      else
        match memberships db !! (u, community_id community) with
        | Some m => answer (CachedData true (Some (status m)) (Some (role m)))
        | None => answer (CachedData false None None)
        end
    | None =>
      if bool_decide (creator_id community = u)
      then answer (CachedData true (Some approved) (Some admin))
      else
        match memberships db !! (u, community_id community) with
        | Some m => answer (CachedData true (Some (status m)) (Some (role m)))
        | None => answer (CachedData false None None)
        end
    end
  end.

(** A public community with a public post; user 2 is not a member. *)
Definition c3 : Community := a_community 3 9 "c3" false false 1.
Definition p3 : Post := a_post 8 3 public 0.
Definition db_public : DB :=
  {| communities := {[ 3%nat := c3 ]};
     memberships := {[ (9%nat, 3%nat) := {| role := admin; status := approved |} ]};
     posts := {[ 8%nat := p3 ]};
     upvotes := ∅ |}.

(** Scenario A with a join request of user 3 waiting for approval. *)
Definition db_pending_request : DB :=
  set_memberships (insert (3%nat, 1%nat) {| role := member; status := pending |}) db_scenario_A.

(** An example store for [community.save()]: the unique constraint on
    [name] is checked, the row is written and the slug key of the cache is
    deleted. *)
Definition example_save (db : DB) (ch : Cache) (c : Community) : SaveOutcome :=
  if bool_decide (Exists (λ c', community_id c' ≠ community_id c ∧ name c' = name c)
                         ((map_to_list (communities db)).*2))
  then RaisedIntegrityError
         "duplicate key value violates unique constraint communities_community_name_key"
         (set_community_by_slug (delete (slug c)) ch)
  else Saved c (set_communities (insert (community_id c) c) db)
             (set_community_by_slug (delete (slug c)) ch).

(** Two communities, created by users 9 and 4. *)
Definition c4 : Community := a_community 4 4 "chess" false false 1.
Definition db_two_communities : DB :=
  {| communities := {[ 3%nat := c3; 4%nat := c4 ]};
     memberships := {[ (9%nat, 3%nat) := {| role := admin; status := approved |};
                       (4%nat, 4%nat) := {| role := admin; status := approved |} ]};
     posts := ∅;
     upvotes := ∅ |}.

Definition rename (s : string) : UpdateData :=
  {| upd_name := Some s; upd_description := None; upd_short_description := None;
     upd_category := None; upd_tags := None; upd_rules := None; upd_is_private := None;
     upd_requires_approval := None; upd_image := None; upd_banner := None |}.

(** The failure messages of [update_community_with_lock] that the design
    document tells apart, for an integrity error with text [e]. *)
Definition update_failure_messages (e : string) : list string :=
  [ "Community not found.";
    "You don't have permission to update this community.";
    "A community with this name already exists.";
    "Database error: " ++ e ].

(** A community that requires approval and has no [Membership] row yet. *)
Definition c5 : Community := a_community 5 9 "c5" false true 0.
Definition db_no_members : DB :=
  {| communities := {[ 5%nat := c5 ]}; memberships := ∅; posts := ∅; upvotes := ∅ |}.

(** A cache in which user 2 is still listed as an admin of community 1. *)
Definition cache_stale_admin : Cache :=
  set_user_admin_memberships (insert 2%nat [1%nat]) empty_cache.

(** ** Further services

    The functions of the same services and models that the sections above
    leave out. *)

Definition with_status (s : Status) (m : Membership) : Membership :=
  {| role := role m; status := s |}.

Definition with_is_pinned (b : bool) (p : Post) : Post :=
  {| post_id := post_id p; post_community_id := post_community_id p;
     title := title p; content := content p; post_type := post_type p;
     visibility := visibility p; is_pinned := b;
     created_at := created_at p; upvote_count_cache := upvote_count_cache p |}.

(** [CommunityService.handle_membership_request]: the row is looked up
    with [status='pending'], changed and saved, which sends [post_save]. *)
Definition handle_membership_request (db : DB) (ch : Cache) (community : Community)
    (user_id : nat) (approve : bool) : (bool * string) * DB * Cache :=
  let cid := community_id community in
  match memberships db !! (user_id, cid) with
  | Some membership =>
    if bool_decide (status membership = pending) then
      let '(db', ch') :=
        update_community_member_count
          (set_memberships
             (insert (user_id, cid)
                     (with_status (if approve then approved else rejected) membership)) db)
          ch (instance_community db community) user_id in
      ((true, if approve then "Membership request approved."
              else "Membership request rejected."), db', ch')
    else ((false, "No pending membership request found for this user."), db, ch)
  | None => ((false, "No pending membership request found for this user."), db, ch)
  end.

(** The rows of
    [Membership.objects.filter(community=c, user_id__in=user_ids, status='pending')]. *)
Definition pending_request_of (cid : nat) (user_ids : list nat)
    (kv : nat * nat * Membership) : Prop :=
  kv.1.2 = cid ∧ kv.1.1 ∈ user_ids ∧ status kv.2 = pending.

#[global] Instance pending_request_of_dec cid user_ids kv :
  Decision (pending_request_of cid user_ids kv).
Proof. unfold pending_request_of. apply _. Defined.

(** [CommunityService.bulk_handle_membership_requests].  The rows are
    changed with [QuerySet.update], which sends no signal; the function
    adds the number of rows to the counter of its community object. *)
Definition bulk_handle_membership_requests (db : DB) (ch : Cache) (community : Community)
    (user_ids : list nat) (approve : bool) : (Z * Z) * DB * Cache :=
  let cid := community_id community in
  let memberships_found := filter (pending_request_of cid user_ids) (memberships db) in
  if bool_decide (size memberships_found = 0%nat) then
    ((0, Z.of_nat (length user_ids)), db, ch)
  else
    let new_status := if approve then approved else rejected in
    let count := Z.of_nat (size memberships_found) in
    let db1 :=
      set_memberships
        (map_imap (λ k m, Some (if decide (pending_request_of cid user_ids (k, m))
                                then with_status new_status m else m))) db in
    let ch1 :=
      set_membership_status (λ t, foldr (λ u t, delete (cid, u) t) t user_ids) ch in
    let db2 :=
      if approve then
        set_communities
          (alter (with_member_count_cache (member_count_cache community + count)) cid) db1
      else db1 in
    ((count, Z.of_nat (length user_ids) - count), db2, ch1).

(** [PostService.toggle_post_pin], with the [post] object it changes. *)
Definition toggle_post_pin (db : DB) (ch : Cache) (post : Post)
    : (bool * string) * DB * Cache * Post :=
  let post' := with_is_pinned (negb (is_pinned post)) post in
  (* post.save(update_fields=['is_pinned']) *)
  let db' := set_posts (alter (with_is_pinned (is_pinned post')) (post_id post)) db in
  let ch' := set_post_counts (delete (post_id post)) (delete (post_id post)) ch in
  if is_pinned post' then ((true, "Post pinned."), db', ch', post')
  else ((false, "Post unpinned."), db', ch', post').

(** [Post.upvote_count] (models/post.py), with the object whose attribute
    it may assign. *)
Definition upvote_count (db : DB) (ch : Cache) (post : Post) : Z * DB * Cache * Post :=
  if 0 <? upvote_count_cache post then (upvote_count_cache post, db, ch, post)
  else
    match post_upvote_count ch !! post_id post with
    | Some cached_count => (cached_count, db, ch, post)
    | None =>
      let count := Z.of_nat (upvotes_count db (post_id post)) in
      let ch' := set_post_counts (insert (post_id post) count) id ch in
      if bool_decide (count ≠ upvote_count_cache post) then
        (count,
         set_posts (alter (with_upvote_count_cache count) (post_id post)) db,
         ch', with_upvote_count_cache count post)
      else (count, db, ch', post)
    end.



(** An approval-required community with its creator's admin row and the
    pending request of user 3. *)
Definition c6 : Community := a_community 6 9 "c6" false true 1.
Definition db_request : DB :=
  {| communities := {[ 6%nat := c6 ]};
     memberships := {[ (9%nat, 6%nat) := {| role := admin; status := approved |};
                       (3%nat, 6%nat) := {| role := member; status := pending |} ]};
     posts := ∅;
     upvotes := ∅ |}.

(** The same community with the pending requests of users 3 and 4. *)
Definition db_two_requests : DB :=
  set_memberships (insert (4%nat, 6%nat) {| role := member; status := pending |}) db_request.

(** The persisted counter of the post is the number of its upvotes. *)
Definition upvote_counter_consistent (db : DB) (pid : nat) : Prop :=
  persisted_upvote_count db pid = Some (Z.of_nat (upvotes_count db pid)).

(** The public community with the upvote of user 9 on its post. *)
Definition p3_upvoted : Post := a_post 8 3 public 1.
Definition db_public_upvoted : DB :=
  {| communities := {[ 3%nat := c3 ]};
     memberships := {[ (9%nat, 3%nat) := {| role := admin; status := approved |} ]};
     posts := {[ 8%nat := p3_upvoted ]};
     upvotes := {[ (8%nat, 9%nat) ]} |}.

(** * Properties *)

#[local] Set Warnings "-clear-no-such-hyp".

(** ** Facts about the queries *)

Lemma elem_of_approved_community_ids db u cid :
  cid ∈ approved_community_ids db u ↔ approved_membership_exists db u cid = true.
Proof.
  unfold approved_community_ids, approved_membership_exists.
  rewrite list_elem_of_omap. split.
  - intros [[[u' c'] m] [Hin Hsome]]. apply elem_of_map_to_list in Hin.
    simpl in Hsome. case_decide as Hd; [|done]. destruct Hd as [-> Hst].
    injection Hsome as ->. rewrite Hin. by apply bool_decide_eq_true.
  - destruct (memberships db !! (u, cid)) as [m|] eqn:Hm; [|done].
    intros Hst%bool_decide_eq_true. exists ((u, cid), m). split.
    + by apply elem_of_map_to_list.
    + simpl. by rewrite decide_True.
Qed.

Lemma elem_of_approved_admin_community_ids db u cid :
  cid ∈ approved_admin_community_ids db u ↔ approved_admin_exists db u cid = true.
Proof.
  unfold approved_admin_community_ids, approved_admin_exists.
  rewrite list_elem_of_omap. split.
  - intros [[[u' c'] m] [Hin Hsome]]. apply elem_of_map_to_list in Hin.
    simpl in Hsome. case_decide as Hd; [|done]. destruct Hd as [-> [Hst Hr]].
    injection Hsome as ->. rewrite Hin.
    apply andb_true_iff. split; by apply bool_decide_eq_true.
  - destruct (memberships db !! (u, cid)) as [m|] eqn:Hm; [|done].
    intros [Hst%bool_decide_eq_true Hr%bool_decide_eq_true]%andb_true_iff.
    exists ((u, cid), m). split.
    + by apply elem_of_map_to_list.
    + simpl. by rewrite decide_True.
Qed.

Lemma elem_of_order_posts p l : p ∈ order_posts l ↔ p ∈ l.
Proof. unfold order_posts. by rewrite merge_sort_Permutation. Qed.


Lemma base_queryset_community db community_slug post_type search p :
  p ∈ base_queryset db community_slug post_type search →
  is_Some (communities db !! post_community_id p).
Proof.
  unfold base_queryset. intros Hp.
  destruct (truthy search); [apply list_elem_of_filter in Hp as [_ Hp]|];
    (destruct (truthy post_type); [apply list_elem_of_filter in Hp as [_ Hp]|]);
    (destruct (truthy community_slug); [apply list_elem_of_filter in Hp as [_ Hp]|]);
    by apply list_elem_of_filter in Hp as [? _].
Qed.

Lemma cache_after_slug_filter_sets db ch user community_slug :
  user_memberships (cache_after_slug_filter db ch user community_slug) = user_memberships ch ∧
  user_admin_memberships (cache_after_slug_filter db ch user community_slug)
    = user_admin_memberships ch.
Proof.
  unfold cache_after_slug_filter, visibility_debug_logging.
  by repeat case_match.
Qed.

(** With the viewer's two lists absent from the cache or in agreement with
    the table, the working lists hold the ids the table gives: the check
    against the table for the community of the slug finds nothing to
    repair. *)
Lemma visibility_sets_fresh db ch u community_slug :
  viewer_sets_fresh db ch (Some u) →
  (∀ cid, cid ∈ (visibility_sets db ch u community_slug).1.1
          ↔ approved_membership_exists db u cid = true)
  ∧ (∀ cid, cid ∈ (visibility_sets db ch u community_slug).1.2
            ↔ approved_admin_exists db u cid = true).
Proof.
  intros [Hm Ha]. unfold visibility_sets.
  set (mc := match user_memberships ch !! u with
             | Some l => l
             | None => approved_community_ids db u
             end).
  set (ch1 := match user_memberships ch !! u with
              | Some l => ch
              | None => set_user_memberships (insert u (approved_community_ids db u)) ch
              end).
  assert (match user_memberships ch !! u with
          | Some l => (l, ch)
          | None => (approved_community_ids db u,
                     set_user_memberships (insert u (approved_community_ids db u)) ch)
          end = (mc, ch1)) as -> by (subst mc ch1; by destruct (user_memberships ch !! u)).
  assert (∀ cid, cid ∈ mc ↔ approved_membership_exists db u cid = true) as Hmc.
  { subst mc. destruct (user_memberships ch !! u) as [l|] eqn:E.
    - by apply Hm.
    - apply elem_of_approved_community_ids. }
  assert (user_admin_memberships ch1 = user_admin_memberships ch) as Hsame
    by (subst ch1; by destruct (user_memberships ch !! u)).
  rewrite Hsame.
  set (ac := match user_admin_memberships ch !! u with
             | Some l => l
             | None => approved_admin_community_ids db u
             end).
  assert (∀ cid, cid ∈ ac ↔ approved_admin_exists db u cid = true) as Hac.
  { subst ac. destruct (user_admin_memberships ch !! u) as [l|] eqn:E.
    - by apply Ha.
    - apply elem_of_approved_admin_community_ids. }
  assert (∀ ch2 : Cache,
            (let '(o, ch3) := get_by_slug db ch2 (default "" community_slug) in
             match o with
             | Some community =>
               if approved_membership_exists db u (community_id community)
                  && negb (bool_decide (community_id community ∈ mc))
               then (((mc ++ [community_id community])%list, ac),
                     set_user_memberships (delete u) ch3)
               else if negb (approved_membership_exists db u (community_id community))
                       && bool_decide (community_id community ∈ mc)
               then ((list_remove_first (community_id community) mc,
                      if bool_decide (community_id community ∈ ac)
                      then list_remove_first (community_id community) ac else ac),
                     set_user_admin_memberships (delete u)
                       (set_user_memberships (delete u) ch3))
               else ((mc, ac), ch3)
             | None => ((mc, ac), ch3)
             end).1 = (mc, ac)) as Hrec.
  { intros ch2. destruct (get_by_slug _ _ _) as [[community|] ch3]; [|done].
    destruct (approved_membership_exists db u (community_id community)) eqn:Hex.
    - apply Hmc in Hex. by rewrite (bool_decide_eq_true_2 _ Hex).
    - assert (community_id community ∉ mc) as Hnin by (rewrite Hmc, Hex; done).
      by rewrite (bool_decide_eq_false_2 _ Hnin). }
  destruct (user_admin_memberships ch !! u) as [l|] eqn:E;
    (destruct (truthy community_slug); [rewrite Hrec|]; simpl; done).
Qed.

Lemma visibility_public_or_members v : v ∈ [public; members] ↔ v ≠ admin_only.
Proof. destruct v; set_solver. Qed.

(** The three clauses of the bulk query, over id lists that hold what the
    table gives, are the decision table over the [Membership] rows. *)
Lemma clauses_decision_table db u mc ac p :
  (∀ cid, cid ∈ mc ↔ approved_membership_exists db u cid = true) →
  (∀ cid, cid ∈ ac ↔ approved_admin_exists db u cid = true) →
  is_Some (communities db !! post_community_id p) →
  (public_communities_posts db p ∨
   member_communities_posts mc p ∨
   admin_communities_posts ac p)
  ↔ visible_by_rows db (Some u) p = true.
Proof.
  intros Hmc Hac [c Hc].
  unfold public_communities_posts, member_communities_posts, admin_communities_posts,
    visible_by_rows.
  rewrite Hmc, Hac, Hc.
  unfold approved_membership_exists, approved_admin_exists, resolve_rows, viewer_state.
  simpl.
  rewrite visibility_public_or_members.
  destruct (memberships db !! (u, post_community_id p)) as [[r st]|]; simpl.
  - destruct st, r, (is_private c), (visibility p); simpl; naive_solver.
  - destruct (is_private c), (visibility p); simpl; naive_solver.
Qed.

(** With the viewer's cached id lists absent or in agreement with the
    table, the bulk query is the decision table over the [Membership]
    rows. *)
Lemma get_post_queryset_fresh db ch viewer community_slug post_type search p :
  viewer_sets_fresh db ch viewer →
  p ∈ (get_post_queryset db ch viewer community_slug post_type search).1
  ↔ p ∈ base_queryset db community_slug post_type search
    ∧ visible_by_rows db viewer p = true.
Proof.
  intros Hfresh. unfold get_post_queryset. destruct viewer as [u|]; simpl.
  - assert (viewer_sets_fresh db (cache_after_slug_filter db ch (Some u) community_slug)
              (Some u)) as Hfresh'.
    { pose proof (cache_after_slug_filter_sets db ch (Some u) community_slug) as [Em Ea].
      unfold viewer_sets_fresh. by rewrite Em, Ea. }
    pose proof (visibility_sets_fresh db _ u community_slug Hfresh') as [Hmc Hac].
    destruct (visibility_sets _ _ _ _) as [[mc ac] ch1]. simpl in Hmc, Hac. simpl.
    rewrite elem_of_order_posts, elem_of_remove_dups, list_elem_of_filter.
    split.
    + intros [Hcl Hp]. split; [done|].
      eapply clauses_decision_table; [done..| |done]. by eapply base_queryset_community.
    + intros [Hp Hv]. split; [|done].
      eapply clauses_decision_table; [done..| |done]. by eapply base_queryset_community.
  - rewrite elem_of_order_posts, list_elem_of_filter.
    unfold public_communities_posts, visible_by_rows. simpl. split.
    + intros [[Hpriv Hvis] Hp]. split; [done|].
      destruct (communities db !! post_community_id p) as [c|]; [|done].
      simpl in Hpriv. injection Hpriv as ->. by rewrite Hvis.
    + intros [Hp Hv]. split; [|done].
      destruct (communities db !! post_community_id p) as [c|]; [|done].
      simpl. by destruct (is_private c), (visibility p).
Qed.





(** A stale admin list is not repaired: user 2 holds no row, the cache
    still lists community 1 among their admin communities, and the bulk
    query for the community's slug returns its members-only post, which
    the table refuses. *)
Example stale_admin_list_shows_post :
  (get_post_queryset db_scenario_A cache_stale_admin (Some 2%nat) (Some "c") None None).1 = [p2]
  ∧ visible_by_rows db_scenario_A (Some 2%nat) p2 = false.
Proof. split; reflexivity. Qed.


(** Scenario A on the model: the members-only post of the private
    community is listed for the approved member and not for user 2. *)
Example scenario_A_member_lists_post :
  (get_post_queryset db_scenario_A empty_cache (Some 1%nat) (Some "c") None None).1 = [p2].
Proof. reflexivity. Qed.

Example scenario_A_outsider_lists_nothing :
  (get_post_queryset db_scenario_A empty_cache (Some 2%nat) (Some "c") None None).1 = [].
Proof. reflexivity. Qed.

(** ** The single-post path *)

Lemma base_queryset_posts db community_slug post_type search p :
  p ∈ base_queryset db community_slug post_type search →
  ∃ i, posts db !! i = Some p.
Proof.
  unfold base_queryset. intros Hp.
  destruct (truthy search); [apply list_elem_of_filter in Hp as [_ Hp]|];
    (destruct (truthy post_type); [apply list_elem_of_filter in Hp as [_ Hp]|]);
    (destruct (truthy community_slug); [apply list_elem_of_filter in Hp as [_ Hp]|]);
    apply list_elem_of_filter in Hp as [_ Hp];
    apply list_elem_of_fmap in Hp as [[i q] [-> Hq]];
    exists i; by apply elem_of_map_to_list.
Qed.

(** Whatever the cache holds, the bulk query returns posts of the filtered
    base query only. *)
Lemma get_post_queryset_base db ch viewer community_slug post_type search p :
  p ∈ (get_post_queryset db ch viewer community_slug post_type search).1 →
  p ∈ base_queryset db community_slug post_type search.
Proof.
  unfold get_post_queryset. destruct viewer as [u|]; simpl.
  - destruct (visibility_sets _ _ _ _) as [[mc ac] ch1]. simpl.
    rewrite elem_of_order_posts, elem_of_remove_dups, list_elem_of_filter. tauto.
  - rewrite elem_of_order_posts, list_elem_of_filter. tauto.
Qed.

(** The check of [retrieve] is the decision table over the viewer's
    [Membership] row, looked up at the time of the request. *)
Lemma retrieve_check_decision_table db viewer p c :
  communities db !! post_community_id p = Some c →
  community_id c = post_community_id p →
  (retrieve_check db viewer p c = Response200 p ∧ visible_by_rows db viewer p = true) ∨
  (status_code (retrieve_check db viewer p c) = 403%nat ∧ visible_by_rows db viewer p = false).
Proof.
  intros Hc Hid. unfold retrieve_check, retrieve_membership, visible_by_rows, resolve_rows,
    viewer_state. rewrite Hc, Hid.
  destruct viewer as [u|]; simpl.
  - destruct (memberships db !! (u, post_community_id p)) as [[r st]|]; simpl.
    + destruct st, r, (is_private c), (visibility p); simpl; auto.
    + destruct (is_private c), (visibility p); simpl; auto.
  - destruct (is_private c), (visibility p); simpl; auto.
Qed.

(** C2, as amended.  [retrieve] answers 200 with the post only if the
    decision table allows it for the viewer's [Membership] row as it is in
    the table at that moment, whatever the cache holds; and when the
    viewer's cached id lists are absent or agree with the table it answers
    200 exactly for the post with that key which passes the filters of the
    URL and is allowed by the table over the rows.  An approved admin row
    sees every post; the creator is treated by their row like any other
    user. *)
Theorem retrieve_decision_table db ch viewer community_slug pk type search p :
  communities_keyed db →
  posts_keyed db →
  ((retrieve db ch viewer community_slug pk type search).1 = Response200 p →
     post_id p = pk ∧ visible_by_rows db viewer p = true)
  ∧ (viewer_sets_fresh db ch viewer →
     ((retrieve db ch viewer community_slug pk type search).1 = Response200 p
      ↔ p ∈ base_queryset db community_slug type search ∧ post_id p = pk
        ∧ visible_by_rows db viewer p = true)).
Proof.
  intros Hck Hpk.
  assert (∀ q, q ∈ (get_post_queryset db ch viewer community_slug type search).1 →
               post_id q = pk →
               (retrieve db ch viewer community_slug pk type search).1 = Response200 p →
               q = p ∧ visible_by_rows db viewer p = true) as Hfound.
  { intros q Hq Hqid. unfold retrieve.
    destruct (get_post_queryset _ _ _ _ _ _) as [qs ch'] eqn:Hqs. simpl in Hq.
    destruct (head (filter _ qs)) as [post|] eqn:Hhead; simpl; [|done].
    apply head_Some_elem_of, list_elem_of_filter in Hhead as [Hid Hin].
    assert (post ∈ (get_post_queryset db ch viewer community_slug type search).1) as Hin'
      by (by rewrite Hqs).
    apply get_post_queryset_base, base_queryset_posts in Hin' as [i Hi].
    assert (q ∈ (get_post_queryset db ch viewer community_slug type search).1) as Hq'
      by (by rewrite Hqs).
    apply get_post_queryset_base, base_queryset_posts in Hq' as [j Hj].
    pose proof (Hpk _ _ Hi) as Ei. pose proof (Hpk _ _ Hj) as Ej.
    assert (q = post) as -> by congruence.
    destruct (communities db !! post_community_id post) as [c|] eqn:Hc; simpl; [|done].
    destruct (retrieve_check_decision_table db viewer post c Hc (Hck _ _ Hc))
      as [[-> Hv]|[Hcode Hv]].
    - intros [= ->]. done.
    - intros E. rewrite E in Hcode. done. }
  assert ((retrieve db ch viewer community_slug pk type search).1 = Response200 p →
          p ∈ (get_post_queryset db ch viewer community_slug type search).1
          ∧ post_id p = pk ∧ visible_by_rows db viewer p = true) as Hsound.
  { intros Hr. pose proof Hr as Hr'. unfold retrieve in Hr'.
    destruct (get_post_queryset _ _ _ _ _ _) as [qs ch'] eqn:Hqs. simpl in *.
    destruct (head (filter _ qs)) as [post|] eqn:Hhead; simpl in Hr'; [|done].
    apply head_Some_elem_of, list_elem_of_filter in Hhead as [Hid Hin].
    destruct (Hfound post) as [-> Hv]; [done..|]. done. }
  split.
  - intros Hr. by destruct (Hsound Hr) as (_ & ? & ?).
  - intros Hfresh.
    pose proof (λ q, get_post_queryset_fresh db ch viewer community_slug
                       type search q Hfresh) as Hiff.
    split.
    + intros Hr. destruct (Hsound Hr) as (Hin & ? & ?).
      apply Hiff in Hin as [? _]. done.
    + intros (Hbase & Hid & Hv).
      assert (p ∈ (get_post_queryset db ch viewer community_slug type search).1) as Hin
        by (apply Hiff; done).
      destruct (retrieve db ch viewer community_slug pk type search) as [resp chr] eqn:Hr.
      pose proof Hr as Hr'. unfold retrieve in Hr'.
      destruct (get_post_queryset _ _ _ _ _ _) as [qs ch'] eqn:Hqs. simpl in Hin.
      destruct (head (filter (λ p0, post_id p0 = pk) qs)) as [post|] eqn:Hhead.
      * pose proof Hhead as Hh.
        apply head_Some_elem_of, list_elem_of_filter in Hh as [Hpid Hpin].
        assert (post = p) as ->.
        { assert (post ∈ (get_post_queryset db ch viewer community_slug type search).1)
            as Hin' by (by rewrite Hqs).
          apply get_post_queryset_base, base_queryset_posts in Hin' as [i Hi].
          apply base_queryset_posts in Hbase as [j Hj].
          pose proof (Hpk _ _ Hi). pose proof (Hpk _ _ Hj). congruence. }
        destruct (communities db !! post_community_id p) as [c|] eqn:Hc.
        -- destruct (retrieve_check_decision_table db viewer p c Hc (Hck _ _ Hc))
             as [[E _]|[_ E]]; [|congruence].
           simpl. injection Hr' as <- <-. done.
        -- unfold visible_by_rows in Hv. by rewrite Hc in Hv.
      * apply head_None in Hhead.
        assert (p ∈ filter (λ p0, post_id p0 = pk) qs) as Hp
          by (apply list_elem_of_filter; done).
        rewrite Hhead in Hp. by apply elem_of_nil in Hp.
Qed.

Lemma db_scenario_A_keyed : communities_keyed db_scenario_A ∧ posts_keyed db_scenario_A.
Proof.
  split; intros k x H; simpl in H; apply lookup_singleton_Some in H as [<- <-]; reflexivity.
Defined.

Lemma retrieve_decision_table_witness :
  (retrieve db_scenario_A empty_cache (Some 1%nat) (Some "c") 5 None None).1 = Response200 p2
  ↔ p2 ∈ base_queryset db_scenario_A (Some "c") None None ∧ post_id p2 = 5%nat
    ∧ visible_by_rows db_scenario_A (Some 1%nat) p2 = true.
Proof.
  apply (retrieve_decision_table db_scenario_A empty_cache (Some 1%nat) (Some "c") 5 None None p2
           (proj1 db_scenario_A_keyed) (proj2 db_scenario_A_keyed)).
  split; intros l Hl; discriminate Hl.
Defined.

(** Scenario A on the model: the request of user 2 for the post is turned
    down, the one of the approved member succeeds. *)
Example scenario_A_retrieve :
  status_code (retrieve db_scenario_A empty_cache (Some 2%nat) (Some "c") 5 None None).1 ≠ 200%nat
  ∧ (retrieve db_scenario_A empty_cache (Some 1%nat) (Some "c") 5 None None).1 = Response200 p2.
Proof. split; [vm_compute; lia | reflexivity]. Qed.

(** With the stale admin list the post is found by [get_object], and the
    check against the table refuses it. *)
Example stale_admin_list_retrieve_refused :
  (retrieve db_scenario_A cache_stale_admin (Some 2%nat) (Some "c") 5 None None).1
  = Response403 "You don't have permission to access this post.".
Proof. reflexivity. Qed.

(** C2 as stated fails for the creator: the creator of the private
    community [c2] has no [Membership] row, and [retrieve] does not return
    the community's post to them; the check of [retrieve] on that post
    answers 403. *)
Lemma retrieve_denies_creator_without_row :
  creator_id c2 = 7%nat ∧
  communities db_creator_without_row !! post_community_id p1 = Some c2 ∧
  status_code (retrieve db_creator_without_row empty_cache (Some 7%nat) (Some "c2") 1 None None).1
    = 500%nat ∧
  retrieve_check db_creator_without_row (Some 7%nat) p1 c2
    = Response403 "You don't have permission to access this post.".
Proof. repeat split; reflexivity. Qed.

(** ** Leaving, joining and role changes *)

Lemma update_community_member_count_memberships db ch c u :
  memberships (update_community_member_count db ch c u).1 = memberships db.
Proof. reflexivity. Qed.

Lemma role_of_value_Some new_role r :
  role_of_value new_role = Some r → (new_role = "admin" ↔ r = admin).
Proof.
  unfold role_of_value. repeat case_decide; intros [= <-]; subst; split; done.
Qed.

Lemma admin_count_approved db cid :
  all_admin_rows_approved db cid → admin_count db cid = approved_admin_count db cid.
Proof.
  intros Hall. unfold admin_count, approved_admin_count. f_equal.
  apply map_filter_ext. intros [u c] m Hm. simpl. split.
  - intros [-> Hr]. eauto.
  - naive_solver.
Qed.

Lemma approved_admin_count_delete db k cid :
  (approved_admin_count db cid - 1 ≤
   approved_admin_count (set_memberships (delete k) db) cid)%nat.
Proof.
  unfold approved_admin_count. simpl. rewrite map_filter_delete, map_size_delete.
  case_match; simpl; lia.
Qed.

Lemma approved_admin_count_delete_other db k cid :
  (∀ m, memberships db !! k = Some m → ¬ (role m = admin ∧ status m = approved)) →
  approved_admin_count (set_memberships (delete k) db) cid = approved_admin_count db cid.
Proof.
  intros Hk. unfold approved_admin_count. simpl. f_equal.
  apply map_filter_delete_not. intros m Hm. specialize (Hk m Hm). naive_solver.
Qed.

Lemma approved_admin_count_communities db f cid :
  approved_admin_count (set_communities f db) cid = approved_admin_count db cid.
Proof. reflexivity. Qed.

(** What [leave_community] does to the [Membership] table. *)
Lemma leave_community_memberships db ch u c :
  memberships (leave_community db ch u c).1.2 = memberships db ∨
  (memberships (leave_community db ch u c).1.2 = delete (u, community_id c) (memberships db) ∧
   (leave_community db ch u c).1.1.1 = true).
Proof.
  unfold leave_community.
  destruct (memberships db !! (u, community_id c)) as [m|]; [|by left].
  destruct (_ && _); [by left|]. right. simpl.
  by destruct (0 <? member_count_cache c).
Qed.

(** The guard of [leave_community]. *)
Lemma leave_community_last_admin db ch u c m :
  memberships db !! (u, community_id c) = Some m →
  role m = admin →
  admin_count db (community_id c) = 1%nat →
  leave_community db ch u c
  = ((false, "You cannot leave the community as you are the only admin. Please make another user an admin first."),
     db, ch).
Proof.
  intros Hm Hr Hc. unfold leave_community. rewrite Hm.
  by rewrite (bool_decide_eq_true_2 _ Hr), (bool_decide_eq_true_2 _ Hc).
Qed.

(** The guard of [update_member_role], for a change of one's own role. *)
Lemma update_member_role_last_admin db ch c u m new_role :
  memberships db !! (u, community_id c) = Some m →
  admin_count db (community_id c) = 1%nat →
  new_role ≠ "admin" →
  ∃ message, update_member_role db ch c u new_role u = ((false, message), db, ch).
Proof.
  intros Hm Hc Hn. unfold update_member_role.
  destruct (role_of_value new_role) as [r|]; [|by eexists].
  rewrite Hm, (bool_decide_eq_true_2 (u = u)), (bool_decide_eq_false_2 _ Hn),
    (bool_decide_eq_true_2 _ Hc) by done.
  by eexists.
Qed.

Lemma leave_community_keeps_admin db ch u c :
  all_admin_rows_approved db (community_id c) →
  (1 ≤ approved_admin_count db (community_id c))%nat →
  (1 ≤ approved_admin_count (leave_community db ch u c).1.2 (community_id c))%nat.
Proof.
  intros Hall Hone. unfold leave_community.
  destruct (memberships db !! (u, community_id c)) as [m|] eqn:Hm; [|done].
  destruct (bool_decide (role m = admin)) eqn:Hr; simpl.
  - destruct (bool_decide (admin_count db (community_id c) = 1%nat)) eqn:Hc; simpl; [done|].
    apply bool_decide_eq_false in Hc. rewrite admin_count_approved in Hc by done.
    pose proof (approved_admin_count_delete db (u, community_id c) (community_id c)).
    destruct (0 <? member_count_cache c); rewrite ?approved_admin_count_communities;
      unfold update_community_member_count; simpl;
      rewrite ?approved_admin_count_communities; lia.
  - apply bool_decide_eq_false in Hr.
    assert (approved_admin_count (set_memberships (delete (u, community_id c)) db)
              (community_id c) = approved_admin_count db (community_id c)) as E.
    { apply approved_admin_count_delete_other. intros m' Hm'. naive_solver. }
    destruct (0 <? member_count_cache c); rewrite ?approved_admin_count_communities;
      unfold update_community_member_count; simpl;
      rewrite ?approved_admin_count_communities; lia.
Qed.

Lemma approved_admin_count_insert db k x cid :
  (approved_admin_count db cid - 1 ≤
   approved_admin_count (set_memberships (insert k x) db) cid)%nat.
Proof.
  unfold approved_admin_count. simpl. rewrite map_filter_insert. case_decide.
  - rewrite map_size_insert. case_match; simpl; lia.
  - rewrite map_filter_delete, map_size_delete. case_match; simpl; lia.
Qed.

Lemma approved_admin_count_insert_other db u cid x :
  (∀ m, memberships db !! (u, cid) = Some m → ¬ (role m = admin ∧ status m = approved)) →
  (approved_admin_count db cid ≤
   approved_admin_count (set_memberships (insert (u, cid) x) db) cid)%nat.
Proof.
  intros Hk. unfold approved_admin_count. simpl. rewrite map_filter_insert. case_decide.
  - rewrite map_size_insert. case_match; simpl; lia.
  - rewrite map_filter_delete_not; [done|]. intros m Hm. specialize (Hk m Hm). naive_solver.
Qed.

Lemma approved_admin_count_promote db u cid m :
  memberships db !! (u, cid) = Some m →
  (approved_admin_count db cid ≤
   approved_admin_count (set_memberships (insert (u, cid) (with_role admin m)) db) cid)%nat.
Proof.
  intros Hm. unfold approved_admin_count. simpl. rewrite map_filter_insert. case_decide as HP.
  - rewrite map_size_insert. case_match; simpl; lia.
  - rewrite map_filter_delete_not; [done|]. intros m' Hm'. simpl in *.
    assert (m' = m) as -> by congruence. naive_solver.
Qed.

Lemma update_member_role_keeps_admin db ch c u new_role :
  all_admin_rows_approved db (community_id c) →
  (1 ≤ approved_admin_count db (community_id c))%nat →
  (1 ≤ approved_admin_count (update_member_role db ch c u new_role u).1.2 (community_id c))%nat.
Proof.
  intros Hall Hone. unfold update_member_role.
  destruct (role_of_value new_role) as [r|] eqn:Hrole; [|done].
  destruct (memberships db !! (u, community_id c)) as [m|] eqn:Hm; [|done].
  rewrite (bool_decide_eq_true_2 (u = u)) by done. simpl.
  pose proof (role_of_value_Some _ _ Hrole) as Hadm.
  destruct (bool_decide (new_role = "admin")) eqn:Hn; simpl.
  - apply bool_decide_eq_true, Hadm in Hn as ->.
    pose proof (approved_admin_count_promote db u (community_id c) m Hm).
    unfold update_community_member_count; simpl.
    rewrite approved_admin_count_communities. lia.
  - destruct (bool_decide (admin_count db (community_id c) = 1%nat)) eqn:Hc; simpl; [done|].
    apply bool_decide_eq_false in Hc.
    unfold update_community_member_count; simpl.
    rewrite approved_admin_count_communities.
    destruct (decide (role m = admin)) as [Hr|Hr].
    + rewrite admin_count_approved in Hc by done.
      pose proof (approved_admin_count_insert db (u, community_id c) (with_role r m)
                    (community_id c)). lia.
    + pose proof (approved_admin_count_insert_other db u (community_id c) (with_role r m)) as H.
      etrans; [|apply H]; [done|]. intros m' Hm'. naive_solver.
Qed.

(** C3, as amended.  A member whose row has the admin role and is the only
    admin-role row of the community cannot leave and cannot change their
    own role away from admin: both calls return [False] with a message and
    leave the store and the cache as they were.  As long as every
    admin-role row of the community is approved, neither leaving nor a
    change of one's own role brings the number of approved admins from at
    least one down to zero.  (A role change made by another user is not
    checked.) *)
Theorem last_admin_guard db ch c u :
  (∀ m, memberships db !! (u, community_id c) = Some m →
        role m = admin →
        admin_count db (community_id c) = 1%nat →
        (leave_community db ch u c).1.1.1 = false
        ∧ (leave_community db ch u c).1.2 = db
        ∧ (leave_community db ch u c).2 = ch
        ∧ ∀ new_role, new_role ≠ "admin" →
            (update_member_role db ch c u new_role u).1.1.1 = false
            ∧ (update_member_role db ch c u new_role u).1.2 = db
            ∧ (update_member_role db ch c u new_role u).2 = ch)
  ∧ (all_admin_rows_approved db (community_id c) →
     (1 ≤ approved_admin_count db (community_id c))%nat →
     (1 ≤ approved_admin_count (leave_community db ch u c).1.2 (community_id c))%nat
     ∧ ∀ new_role,
         (1 ≤ approved_admin_count (update_member_role db ch c u new_role u).1.2
                (community_id c))%nat).
Proof.
  split.
  - intros m Hm Hr Hc.
    rewrite (leave_community_last_admin db ch u c m Hm Hr Hc). repeat split.
    all: destruct (update_member_role_last_admin db ch c u m new_role Hm Hc) as [msg ->];
      done.
  - intros Hall Hone. split.
    + by apply leave_community_keeps_admin.
    + intros new_role. by apply update_member_role_keeps_admin.
Qed.

Lemma last_admin_guard_witness :
  (leave_community db_single_admin empty_cache 1 c1).1.1.1 = false
  ∧ (leave_community db_single_admin empty_cache 1 c1).1.2 = db_single_admin
  ∧ (update_member_role db_single_admin empty_cache c1 1 "member" 1).1.2 = db_single_admin
  ∧ (1 ≤ approved_admin_count (leave_community db_single_admin empty_cache 2 c1).1.2 1)%nat.
Proof.
  destruct (last_admin_guard db_single_admin empty_cache c1 1) as [Hguard _].
  destruct (Hguard {| role := admin; status := approved |}) as (H1 & H2 & _ & H3);
    [reflexivity..|].
  destruct (H3 "member") as (_ & H4 & _); [discriminate|].
  destruct (last_admin_guard db_single_admin empty_cache c1 2) as [_ Hkeep].
  destruct Hkeep as [H5 _].
  - intros u m Hm Hr. simpl in Hm.
    apply lookup_insert_Some in Hm as [[_ <-]|[_ Hm]]; [done|].
    apply lookup_singleton_Some in Hm as [_ <-]. done.
  - vm_compute. lia.
  - exact (conj H1 (conj H2 (conj H4 H5))).
Defined.

(** C3 as stated fails: the moderator (user 2) changes the role of the only
    admin (user 1) to member; the call succeeds and the community is left
    without an approved admin. *)
Lemma update_member_role_removes_last_admin :
  approved_admin_count db_single_admin 1 = 1%nat ∧
  (update_member_role db_single_admin empty_cache c1 1 "member" 2).1.1
    = (true, "User role updated to member.") ∧
  approved_admin_count (update_member_role db_single_admin empty_cache c1 1 "member" 2).1.2 1
    = 0%nat.
Proof. repeat split; vm_compute; reflexivity. Qed.

(** The guard of [leave_community] counts the admin-role rows whatever
    their status: with a pending admin-role row in the table the only
    approved admin may leave. *)
Example leave_community_counts_pending_admin :
  approved_admin_count db_pending_admin 1 = 1%nat ∧
  (leave_community db_pending_admin empty_cache 1 c1).1.1.1 = true ∧
  approved_admin_count (leave_community db_pending_admin empty_cache 1 c1).1.2 1 = 0%nat.
Proof. repeat split; vm_compute; reflexivity. Qed.

(** ** The creator *)

(** C4, as amended.  For the creator of a community, the permission checks
    and the membership serialization resolve to member, approved, admin,
    whatever the [Membership] table and the cache hold, as rule 1 of
    section 4.3 says; they leave the cache alone.  (The post visibility
    paths resolve the creator by their [Membership] row.) *)
Theorem creator_resolution db ch c :
  resolve db (Some (creator_id c)) c
  = {| isMember := true; resolved_status := Some approved; resolved_role := Some admin |}
  ∧ is_community_admin db (Some (creator_id c)) c = true
  ∧ is_community_member db (Some (creator_id c)) c = true
  ∧ get_is_member db ch (Some (creator_id c)) c = (true, ch)
  ∧ get_membership_status db ch (Some (creator_id c)) c = (Some approved, ch)
  ∧ get_membership_role db ch (Some (creator_id c)) c = (Some admin, ch).
Proof.
  unfold resolve, is_community_admin, is_community_member, get_is_member,
    get_membership_status, get_membership_role.
  by rewrite (bool_decide_eq_true_2 (creator_id c = creator_id c)).
Qed.

(** C4 as stated fails at the post visibility call sites: for the creator
    of [c2], who has no row, the membership lookup of [retrieve] answers
    "not a member, not an admin", and the id lists of the bulk query are
    empty. *)
Lemma retrieve_membership_ignores_creator :
  creator_id c2 = 7%nat ∧
  retrieve_membership db_creator_without_row 7 c2 = (false, false) ∧
  (visibility_sets db_creator_without_row empty_cache 7 (Some "c2")).1 = ([], []).
Proof. repeat split; reflexivity. Qed.

(** C5, as amended.  Resolving the creator's membership does not look at
    the [Membership] table.  Authorizing the creator to post does not need
    a row either, but it makes sure there is one: on a cache miss
    [validate_post_creation] succeeds, keeps the creator's row if there is
    one, and otherwise creates an approved admin row for the creator. *)
Theorem validate_post_creation_creator db ch c :
  post_creation_permission ch !! (community_id c, creator_id c) = None →
  (∀ db', is_community_admin db (Some (creator_id c)) c
          = is_community_admin db' (Some (creator_id c)) c
          ∧ get_membership_status db ch (Some (creator_id c)) c
            = get_membership_status db' ch (Some (creator_id c)) c)
  ∧ ∃ m, (validate_post_creation db ch (creator_id c) c).1.1 = Validated m
      ∧ memberships (validate_post_creation db ch (creator_id c) c).1.2
          !! (creator_id c, community_id c) = Some m
      ∧ (memberships db !! (creator_id c, community_id c) = None →
           m = {| role := admin; status := approved |}
           ∧ memberships (validate_post_creation db ch (creator_id c) c).1.2
             = <[(creator_id c, community_id c) := m]> (memberships db))
      ∧ (∀ m0, memberships db !! (creator_id c, community_id c) = Some m0 →
           m = m0 ∧ (validate_post_creation db ch (creator_id c) c).1.2 = db).
Proof.
  intros Hmiss. split.
  - intros db'. unfold is_community_admin, get_membership_status.
    by rewrite (bool_decide_eq_true_2 (creator_id c = creator_id c)).
  - unfold validate_post_creation. rewrite Hmiss.
    rewrite (bool_decide_eq_true_2 (creator_id c = creator_id c)) by done.
    destruct (memberships db !! (creator_id c, community_id c)) as [m0|] eqn:Hm.
    + exists m0. simpl. split_and!; try done; by intros m1 [= ->].
    + exists {| role := admin; status := approved |}. simpl.
      split_and!; try done. by rewrite lookup_insert_eq.
Qed.

Lemma validate_post_creation_creator_witness :
  ∃ m, (validate_post_creation db_creator_without_row empty_cache (creator_id c2) c2).1.1
       = Validated m
     ∧ memberships (validate_post_creation db_creator_without_row empty_cache
                      (creator_id c2) c2).1.2 !! (creator_id c2, community_id c2) = Some m.
Proof.
  destruct (validate_post_creation_creator db_creator_without_row empty_cache c2)
    as [_ (m & H1 & H2 & _)]; [reflexivity|].
  exists m. exact (conj H1 H2).
Defined.

(** C5 as stated fails: the creator of [c2] has no row; authorizing them to
    post creates one. *)
Lemma validate_post_creation_creates_creator_row :
  creator_id c2 = 7%nat ∧
  memberships db_creator_without_row !! (7%nat, 2%nat) = None ∧
  memberships (validate_post_creation db_creator_without_row empty_cache 7 c2).1.2
    !! (7%nat, 2%nat) = Some {| role := admin; status := approved |}.
Proof. repeat split; reflexivity. Qed.

(** C8.  A user without a [Membership] row in a community joins and then
    leaves: both calls succeed, the row created is a member row (pending
    when the community requires approval, approved otherwise), and the
    [Membership] table is afterwards exactly what it was, with no row for
    the pair.  This holds for the creator too. *)
Theorem join_then_leave db ch u c :
  memberships db !! (u, community_id c) = None →
  let joined := join_community db ch u c in
  let left := leave_community joined.1.2 joined.2 u c in
  joined.1.1.1
    = Some {| role := member; status := if requires_approval c then pending else approved |}
  ∧ memberships joined.1.2 !! (u, community_id c) = joined.1.1.1
  ∧ left.1.1 = (true, "You have successfully left this community.")
  ∧ memberships left.1.2 = memberships db
  ∧ memberships left.1.2 !! (u, community_id c) = None.
Proof.
  intros Hnone joined left.
  assert (joined.1.1.1
          = Some {| role := member; status := if requires_approval c then pending else approved |}
          ∧ memberships joined.1.2
            = <[(u, community_id c) :=
                  {| role := member;
                     status := if requires_approval c then pending else approved |}]>
                (memberships db)) as [Hres Hmem].
  { subst joined. unfold join_community. rewrite decide_False by (rewrite Hnone; by intros [? ?]).
    by destruct (requires_approval c). }
  assert (left.1.1 = (true, "You have successfully left this community.")
          ∧ memberships left.1.2 = delete (u, community_id c) (memberships joined.1.2))
    as [Hleft Hdel].
  { subst left. unfold leave_community. rewrite Hmem, lookup_insert_eq. simpl.
    destruct (0 <? member_count_cache c); simpl; by rewrite Hmem. }
  rewrite Hdel, Hmem, delete_insert_id by done.
  rewrite Hres, lookup_insert_eq. done.
Qed.

Lemma join_then_leave_witness :
  memberships (leave_community (join_community db_scenario_A empty_cache 2 c1).1.2
                               (join_community db_scenario_A empty_cache 2 c1).2 2 c1).1.2
  = memberships db_scenario_A.
Proof.
  destruct (join_then_leave db_scenario_A empty_cache 2 c1) as (_ & _ & _ & H & _);
    [reflexivity|exact H].
Defined.

(** ** Upvotes *)

Lemma DB_eq (d1 d2 : DB) :
  communities d1 = communities d2 → memberships d1 = memberships d2 →
  posts d1 = posts d2 → upvotes d1 = upvotes d2 → d1 = d2.
Proof. destruct d1, d2. simpl. by intros -> -> -> ->. Qed.

Lemma alter_upvote_count_cache_twice n1 n2 i (m : gmap nat Post) :
  alter (with_upvote_count_cache n2) i (alter (with_upvote_count_cache n1) i m)
  = alter (with_upvote_count_cache n2) i m.
Proof.
  apply map_eq. intros j. destruct (decide (i = j)) as [->|Hne].
  - rewrite !lookup_alter_eq. by destruct (m !! j).
  - by rewrite !lookup_alter_ne.
Qed.




(** When the cache holds no verdict, or the boolean [False], for a user
    who is neither an approved member nor the creator, the upvote is
    refused and nothing but the cache entry changes. *)
Lemma toggle_post_upvote_refuses db ch post u :
  is_creator_of_post_community db post u = false →
  approved_membership_exists db u (post_community_id post) = false →
  membership_status ch !! (post_community_id post, u) = None
  ∨ membership_status ch !! (post_community_id post, u) = Some (CachedFlag false) →
  (toggle_post_upvote db ch post u).1.1.1
    = (false, "You must be a member of this community to upvote posts.")
  ∧ (toggle_post_upvote db ch post u).1.1.2 = db
  ∧ (toggle_post_upvote db ch post u).2 = post.
Proof.
  intros Hcr Hmem Hcache. unfold toggle_post_upvote. rewrite Hcr.
  destruct Hcache as [-> | ->]; simpl; by rewrite ?Hmem.
Qed.

(** C10 fails on the code.  User 2 is neither a member of the public
    community [c3] nor its creator.  The membership status view answers
    "not a member" and caches that dictionary; [toggle_post_upvote] reads
    the dictionary from the same key as its membership flag, takes it for
    true, and records the upvote. *)
Theorem toggle_post_upvote_accepts_non_member :
  let ch := (membership_status_view db_public empty_cache (Some 2%nat) c3).2 in
  is_creator_of_post_community db_public p3 2 = false
  ∧ approved_membership_exists db_public 2 (post_community_id p3) = false
  ∧ (membership_status_view db_public empty_cache (Some 2%nat) c3).1
    = CachedData false None None
  ∧ membership_status ch !! (post_community_id p3, 2%nat) = Some (CachedData false None None)
  ∧ (toggle_post_upvote db_public ch p3 2).1.1.1 = (true, "Post upvoted.")
  ∧ (post_id p3, 2%nat) ∈ upvotes (toggle_post_upvote db_public ch p3 2).1.1.2
  ∧ persisted_upvote_count (toggle_post_upvote db_public ch p3 2).1.1.2 (post_id p3) = Some 1.
Proof.
  split_and!; reflexivity.
Qed.

(** ** The member counter *)

(** The receiver of the membership signals writes the number of approved
    rows into the community's [member_count_cache]. *)
Lemma update_community_member_count_recomputes db ch c u c0 :
  communities db !! community_id c = Some c0 →
  member_count_cache <$> communities (update_community_member_count db ch c u).1
                           !! community_id c
  = Some (Z.of_nat (approved_member_count db (community_id c)))
  ∧ approved_member_count (update_community_member_count db ch c u).1 (community_id c)
    = approved_member_count db (community_id c).
Proof.
  intros Hc. unfold update_community_member_count. simpl.
  by rewrite lookup_alter_eq, Hc.
Qed.

(** A positive [member_count_cache] is what [Community.member_count] returns. *)
Lemma member_count_positive db c :
  0 < member_count_cache c → member_count db c = member_count_cache c.
Proof. intros H. unfold member_count. by rewrite (proj2 (Z.ltb_lt _ _) H). Qed.

(** After the signal, a community with at least one approved member
    exposes the number of its approved members. *)
Lemma member_count_after_signal db ch c u c0 :
  communities db !! community_id c = Some c0 →
  (0 < approved_member_count db (community_id c))%nat →
  let after := (update_community_member_count db ch c u).1 in
  member_count after <$> communities after !! community_id c
  = Some (Z.of_nat (approved_member_count after (community_id c))).
Proof.
  intros Hc Hpos after. subst after. unfold update_community_member_count. simpl.
  rewrite lookup_alter_eq, Hc. simpl. f_equal.
  apply member_count_positive. simpl. lia.
Qed.

(** C6 fails on the code, on the read path and on the mutation path.
    Read path: a user asks to join a community without members that
    requires approval; the signal stores the count of approved rows, 0,
    and [Community.member_count] then falls back to [members.count()],
    which counts the pending row: the exposed count is 1 and no row is
    approved.  Mutation path: a community has two approved members, the
    pending request of user 3 and [member_count_cache] 2; user 3 leaves,
    the signal recomputes the counter as 2, and [leave_community]
    overwrites it with [max(0, 2 - 1)]: the persisted counter and the
    exposed count are 1, the approved rows are 2. *)
Theorem member_count_diverges :
  (let after := (join_community db_no_members empty_cache 3 c5).1.2 in
   memberships after !! (3%nat, 5%nat) = Some {| role := member; status := pending |}
   ∧ approved_member_count after 5 = 0%nat
   ∧ member_count_cache <$> communities after !! 5%nat = Some 0
   ∧ member_count after <$> communities after !! 5%nat = Some 1)
  ∧ (let after := (leave_community db_pending_request empty_cache 3 c1).1.2 in
     communities db_pending_request !! 1%nat = Some c1
     ∧ member_count_cache c1 = Z.of_nat (approved_member_count db_pending_request 1)
     ∧ memberships db_pending_request !! (3%nat, 1%nat)
       = Some {| role := member; status := pending |}
     ∧ (leave_community db_pending_request empty_cache 3 c1).1.1.1 = true
     ∧ approved_member_count after 1 = 2%nat
     ∧ member_count_cache <$> communities after !! 1%nat = Some 1
     ∧ member_count after <$> communities after !! 1%nat = Some 1).
Proof. split; split_and!; vm_compute; reflexivity. Qed.

(** ** The locked update *)

Lemma update_failure_messages_NoDup e : NoDup (update_failure_messages e).
Proof.
  unfold update_failure_messages.
  repeat (apply NoDup_cons; split; [rewrite ?not_elem_of_cons; split_and?;
    first [discriminate | apply not_elem_of_nil] |]).
  apply NoDup_nil_2.
Qed.

(** C9.  [update_community_with_lock] answers with the saved community and
    no message, or with no community and a message: "not found" when the
    id is absent; the permission message when the caller is neither the
    creator nor holds an admin-role row; the conflict message when the
    save raises an integrity error that names the unique constraint on the
    name; the database-error message with the error text for any other
    integrity error.  The four messages are pairwise different, whatever
    the error text, and in every failure the store is left as it was. *)
Theorem update_community_with_lock_outcomes save db ch cid d u :
  (communities db !! cid = None →
     update_community_with_lock save db ch cid d u
     = ((None, Some "Community not found."), db, ch))
  ∧ (∀ c, communities db !! cid = Some c →
          creator_id c ≠ u → admin_membership_exists db u (community_id c) = false →
          update_community_with_lock save db ch cid d u
          = ((None, Some "You don't have permission to update this community."), db, ch))
  ∧ (∀ c, communities db !! cid = Some c →
          creator_id c = u ∨ admin_membership_exists db u (community_id c) = true →
          match save db ch (apply_update_data c d) with
          | Saved c' db' ch' =>
            (update_community_with_lock save db ch cid d u).1 = ((Some c', None), db')
          | RaisedIntegrityError e ch' =>
            (update_community_with_lock save db ch cid d u).1
            = ((@None Community,
                Some (if str_contains "communities_community_name_key" e
                      then "A community with this name already exists."
                      else "Database error: " ++ e)), db)
          | RaisedException e ch' =>
            (update_community_with_lock save db ch cid d u).1
            = ((None, Some ("Error updating community: " ++ e)), db)
          end)
  ∧ (∀ e, NoDup (update_failure_messages e))
  ∧ (∀ (c' : Community) (message : string),
       (Some c', @None string) ≠ (@None Community, Some message)).
Proof.
  unfold update_community_with_lock, id_of_community. split_and!.
  - by intros ->.
  - intros c -> Hcr Hadm.
    by rewrite (bool_decide_eq_false_2 _ Hcr), Hadm.
  - intros c -> Hauth.
    assert (negb (bool_decide (creator_id c = u))
            && negb (admin_membership_exists db u (community_id c)) = false) as ->.
    { destruct Hauth as [Hcr | ->].
      - by rewrite (bool_decide_eq_true_2 _ Hcr).
      - by rewrite andb_false_r. }
    destruct (save db ch (apply_update_data c d)) as [c' db' ch'|e ch'|e ch']; [done| |done].
    by destruct (str_contains _ e).
  - apply update_failure_messages_NoDup.
  - done.
Qed.

Lemma update_community_with_lock_outcomes_witness :
  update_community_with_lock example_save db_two_communities empty_cache 7 (rename "c3") 4
  = ((None, Some "Community not found."), db_two_communities, empty_cache)
  ∧ update_community_with_lock example_save db_two_communities empty_cache 3 (rename "c3") 4
    = ((None, Some "You don't have permission to update this community."),
       db_two_communities, empty_cache)
  ∧ (update_community_with_lock example_save db_two_communities empty_cache 4 (rename "c3") 4).1
    = ((None, Some "A community with this name already exists."), db_two_communities).
Proof.
  split_and!.
  - apply (update_community_with_lock_outcomes example_save db_two_communities empty_cache 7
             (rename "c3") 4). reflexivity.
  - apply (proj1 (proj2 (update_community_with_lock_outcomes example_save db_two_communities
                           empty_cache 3 (rename "c3") 4)) c3); [reflexivity|discriminate|reflexivity].
  - pose proof (proj1 (proj2 (proj2 (update_community_with_lock_outcomes example_save
                  db_two_communities empty_cache 4 (rename "c3") 4))) c4) as H.
    apply H; [reflexivity|by left].
Defined.

(** * Further properties of the services *)

(** ** Membership requests *)

(** X1.  A second [join_community] by the same user is refused with
    "already a member" and changes neither the store nor the cache,
    whether the first call left an approved row or a pending request. *)
Theorem join_community_twice db ch u c :
  memberships db !! (u, community_id c) = None →
  let joined := join_community db ch u c in
  join_community joined.1.2 joined.2 u c
  = ((None, "You are already a member of this community."), joined.1.2, joined.2).
Proof.
  intros Hnone joined.
  assert (is_Some (memberships joined.1.2 !! (u, community_id c))) as Hrow.
  { subst joined. unfold join_community.
    rewrite decide_False by (rewrite Hnone; by intros [? ?]).
    destruct (requires_approval c); simpl; rewrite lookup_insert_eq; eauto. }
  unfold join_community at 1. by rewrite decide_True.
Qed.

Lemma join_community_twice_witness :
  (join_community (join_community db_no_members empty_cache 3 c5).1.2
                  (join_community db_no_members empty_cache 3 c5).2 3 c5).1.1
  = (None, "You are already a member of this community.").
Proof.
  rewrite (join_community_twice db_no_members empty_cache 3 c5); reflexivity.
Defined.

Lemma approved_member_count_approve db u cid m :
  memberships db !! (u, cid) = Some m →
  status m ≠ approved →
  approved_member_count (set_memberships (insert (u, cid) (with_status approved m)) db) cid
  = S (approved_member_count db cid).
Proof.
  intros Hm Hst. unfold approved_member_count. simpl.
  rewrite map_filter_insert_True by done.
  apply map_size_insert_None, map_lookup_filter_None. right.
  intros m' Hm' [_ Happ]. simpl in *. congruence.
Qed.

Lemma approved_member_count_unapproved db u cid m st :
  memberships db !! (u, cid) = Some m →
  status m ≠ approved → st ≠ approved →
  approved_member_count (set_memberships (insert (u, cid) (with_status st m)) db) cid
  = approved_member_count db cid.
Proof.
  intros Hm Hst Hnew. unfold approved_member_count. simpl. f_equal.
  apply map_filter_insert_not'.
  - simpl. naive_solver.
  - intros m' Hm'. simpl. naive_solver.
Qed.

(** X2.  Approving a pending request turns exactly that row into an
    approved one with its role kept, raises the number of approved members
    by one and stores that number in the community's [member_count_cache];
    a second call for the same user finds no pending request and changes
    nothing. *)
Theorem handle_membership_request_approve db ch c u m c0 :
  communities db !! community_id c = Some c0 →
  community_id c0 = community_id c →
  memberships db !! (u, community_id c) = Some m →
  status m = pending →
  let done := handle_membership_request db ch c u true in
  done.1.1 = (true, "Membership request approved.")
  ∧ memberships done.1.2 = <[(u, community_id c) := with_status approved m]> (memberships db)
  ∧ approved_member_count done.1.2 (community_id c)
    = S (approved_member_count db (community_id c))
  ∧ member_count_cache <$> communities done.1.2 !! community_id c
    = Some (Z.of_nat (approved_member_count done.1.2 (community_id c)))
  ∧ handle_membership_request done.1.2 done.2 c u true
    = ((false, "No pending membership request found for this user."), done.1.2, done.2).
Proof.
  intros Hc Hid Hm Hst done.
  assert (done = ((true, "Membership request approved."),
                  (update_community_member_count
                     (set_memberships (insert (u, community_id c) (with_status approved m)) db)
                     ch (instance_community db c) u).1,
                  (update_community_member_count
                     (set_memberships (insert (u, community_id c) (with_status approved m)) db)
                     ch (instance_community db c) u).2)) as Hdone.
  { subst done. unfold handle_membership_request.
    by rewrite Hm, (bool_decide_eq_true_2 _ Hst). }
  assert (community_id (instance_community db c) = community_id c) as Hinst
    by (unfold instance_community; by rewrite Hc).
  assert (status m ≠ approved) as Hna by (rewrite Hst; done).
  rewrite Hdone. simpl. split_and!.
  - done.
  - done.
  - unfold update_community_member_count. simpl.
    by apply approved_member_count_approve.
  - unfold update_community_member_count. simpl.
    rewrite Hinst, lookup_alter_eq, Hc. done.
  - unfold handle_membership_request at 1. simpl. by rewrite lookup_insert_eq.
Qed.

Lemma handle_membership_request_approve_witness :
  approved_member_count (handle_membership_request db_request empty_cache c6 3 true).1.2 6
  = 2%nat.
Proof.
  destruct (handle_membership_request_approve db_request empty_cache c6 3
              {| role := member; status := pending |} c6) as (_ & _ & H & _);
    [reflexivity..|].
  exact H.
Defined.

(** X3.  Rejecting a pending request keeps the row, with the status
    [rejected]; the number of approved members stays what it was, and the
    rejected user can not ask again: [join_community] answers "already a
    member" and changes nothing. *)
Theorem handle_membership_request_reject db ch c u m :
  memberships db !! (u, community_id c) = Some m →
  status m = pending →
  let done := handle_membership_request db ch c u false in
  done.1.1 = (true, "Membership request rejected.")
  ∧ memberships done.1.2 !! (u, community_id c) = Some (with_status rejected m)
  ∧ approved_member_count done.1.2 (community_id c) = approved_member_count db (community_id c)
  ∧ join_community done.1.2 done.2 u c
    = ((None, "You are already a member of this community."), done.1.2, done.2).
Proof.
  intros Hm Hst done.
  assert (done = ((true, "Membership request rejected."),
                  (update_community_member_count
                     (set_memberships (insert (u, community_id c) (with_status rejected m)) db)
                     ch (instance_community db c) u).1,
                  (update_community_member_count
                     (set_memberships (insert (u, community_id c) (with_status rejected m)) db)
                     ch (instance_community db c) u).2)) as Hdone.
  { subst done. unfold handle_membership_request.
    by rewrite Hm, (bool_decide_eq_true_2 _ Hst). }
  assert (memberships done.1.2 !! (u, community_id c) = Some (with_status rejected m)) as Hrow.
  { rewrite Hdone. simpl. by rewrite lookup_insert_eq. }
  split_and!.
  - by rewrite Hdone.
  - done.
  - rewrite Hdone. unfold update_community_member_count. simpl.
    apply approved_member_count_unapproved; [done| |done]. by rewrite Hst.
  - unfold join_community. rewrite decide_True; [done|]. by rewrite Hrow.
Qed.

Lemma handle_membership_request_reject_witness :
  (join_community (handle_membership_request db_request empty_cache c6 3 false).1.2
                  (handle_membership_request db_request empty_cache c6 3 false).2 3 c6).1.1
  = (None, "You are already a member of this community.").
Proof.
  destruct (handle_membership_request_reject db_request empty_cache c6 3
              {| role := member; status := pending |}) as (_ & _ & _ & H);
    [reflexivity..|].
  rewrite H. reflexivity.
Defined.

Lemma bulk_update_lookup (cid : nat) (user_ids : list nat) (st : Status)
    (m : gmap (nat * nat) Membership) (k : nat * nat) :
  map_imap (λ k x, Some (if decide (pending_request_of cid user_ids (k, x))
                         then with_status st x else x)) m !! k
  = (λ x, if decide (pending_request_of cid user_ids (k, x)) then with_status st x else x)
      <$> m !! k.
Proof. rewrite map_lookup_imap. by destruct (m !! k). Qed.

(** The approved rows after a bulk approval: the rows approved before and
    the requests that were selected. *)
Lemma bulk_approve_approved_rows (cid : nat) (user_ids : list nat)
    (m : gmap (nat * nat) Membership) :
  filter (λ kv : nat * nat * Membership, kv.1.2 = cid ∧ status kv.2 = approved)
         (map_imap (λ k x, Some (if decide (pending_request_of cid user_ids (k, x))
                                 then with_status approved x else x)) m)
  = (with_status approved <$> filter (pending_request_of cid user_ids) m)
    ∪ filter (λ kv : nat * nat * Membership, kv.1.2 = cid ∧ status kv.2 = approved) m.
Proof.
  apply map_eq. intros k. apply option_eq. intros y.
  rewrite map_lookup_filter_Some, bulk_update_lookup, lookup_union_Some_raw,
    !lookup_fmap, !map_lookup_filter.
  unfold pending_request_of. simpl.
  destruct (m !! k) as [x|] eqn:Hx; simpl; [|naive_solver].
  repeat case_guard; repeat case_decide; simpl; destruct x as [r st]; simpl in *;
    naive_solver.
Qed.

Lemma bulk_approve_count db cid user_ids :
  approved_member_count
    (set_memberships
       (map_imap (λ k x, Some (if decide (pending_request_of cid user_ids (k, x))
                               then with_status approved x else x))) db) cid
  = (size (filter (pending_request_of cid user_ids) (memberships db))
     + approved_member_count db cid)%nat.
Proof.
  unfold approved_member_count. simpl.
  rewrite bulk_approve_approved_rows, map_size_disj_union, map_size_fmap; [done|].
  apply map_disjoint_spec. intros k x y Hx Hy.
  apply lookup_fmap_Some in Hx as (x' & _ & Hx').
  apply map_lookup_filter_Some in Hx' as [Hm (_ & _ & Hp)].
  apply map_lookup_filter_Some in Hy as [Hm' [_ Ha]]. simpl in *. congruence.
Qed.

(** X4.  A bulk approval with the community object as it is in the table,
    its counter being the number of approved members, turns the selected
    pending requests into approved rows, keeps their roles and every other
    row, reports their number, and leaves the persisted
    [member_count_cache] equal to the new number of approved members,
    although no signal is sent. *)
Theorem bulk_handle_membership_requests_approve db ch c user_ids :
  communities db !! community_id c = Some c →
  member_count_cache c = Z.of_nat (approved_member_count db (community_id c)) →
  let done := bulk_handle_membership_requests db ch c user_ids true in
  let selected := filter (pending_request_of (community_id c) user_ids) (memberships db) in
  done.1.1.1 = Z.of_nat (size selected)
  ∧ done.1.1.1 + done.1.1.2 = Z.of_nat (length user_ids)
  ∧ (∀ k, memberships done.1.2 !! k
          = (λ x, if decide (pending_request_of (community_id c) user_ids (k, x))
                  then with_status approved x else x) <$> memberships db !! k)
  ∧ approved_member_count done.1.2 (community_id c)
    = (size selected + approved_member_count db (community_id c))%nat
  ∧ member_count_cache <$> communities done.1.2 !! community_id c
    = Some (Z.of_nat (approved_member_count done.1.2 (community_id c))).
Proof.
  intros Hc Hcount done selected. subst done. unfold bulk_handle_membership_requests.
  fold selected.
  destruct (bool_decide (size selected = 0%nat)) eqn:Hzero; simpl.
  - apply bool_decide_eq_true in Hzero. rewrite Hzero. split_and!.
    + done.
    + lia.
    + intros k. destruct (memberships db !! k) as [x|] eqn:Hx; simpl; [|done].
      rewrite decide_False; [done|]. intros Hsel.
      apply map_size_empty_inv in Hzero.
      assert (selected !! k = Some x) as Hin by (by apply map_lookup_filter_Some).
      rewrite Hzero in Hin. done.
    + done.
    + rewrite Hc. simpl. by rewrite Hcount.
  - split_and!.
    + done.
    + lia.
    + intros k. apply bulk_update_lookup.
    + apply bulk_approve_count.
    + rewrite lookup_alter_eq, Hc. simpl. f_equal.
      pose proof (bulk_approve_count db (community_id c) user_ids) as E.
      unfold approved_member_count in *. simpl in *. rewrite E.
      fold selected. rewrite Hcount. unfold approved_member_count. lia.
Qed.

Lemma bulk_handle_membership_requests_approve_witness :
  (bulk_handle_membership_requests db_two_requests empty_cache c6 [3%nat; 4%nat; 5%nat] true).1.1
  = (2, 1)
  ∧ member_count_cache
      <$> communities (bulk_handle_membership_requests db_two_requests empty_cache c6
                         [3%nat; 4%nat; 5%nat] true).1.2 !! 6%nat
    = Some 3.
Proof.
  split; [reflexivity|].
  destruct (bulk_handle_membership_requests_approve db_two_requests empty_cache c6
              [3%nat; 4%nat; 5%nat]) as (_ & _ & _ & _ & H); [reflexivity..|].
  etrans; [exact H|]. reflexivity.
Defined.

(** ** Upvote counters and pins *)

Lemma upvotes_count_add db pid u :
  (pid, u) ∉ upvotes db →
  upvotes_count (set_upvotes (λ s, {[ (pid, u) ]} ∪ s) db) pid = S (upvotes_count db pid).
Proof.
  intros Hnew. unfold upvotes_count. simpl.
  rewrite filter_union_L, filter_singleton_True_L by first [reflexivity | apply _].
  rewrite size_union, size_singleton; [done|].
  apply disjoint_singleton_l. intros [_ Hin]%elem_of_filter. done.
Qed.

Lemma upvotes_count_remove db pid u :
  (pid, u) ∈ upvotes db →
  S (upvotes_count (set_upvotes (λ s, s ∖ {[ (pid, u) ]}) db) pid) = upvotes_count db pid.
Proof.
  intros Hin. unfold upvotes_count. simpl.
  assert (filter (λ pu : nat * nat, pu.1 = pid) (upvotes db)
          = {[ (pid, u) ]} ∪ filter (λ pu : nat * nat, pu.1 = pid) (upvotes db ∖ {[ (pid, u) ]}))
    as ->.
  { apply set_eq. intros [p v]. rewrite elem_of_union, !elem_of_filter, elem_of_difference,
      elem_of_singleton. simpl. split.
    - intros [-> Hv]. destruct (decide (v = u)) as [->|Hne]; [by left|right].
      split; [done|]. split; [done|]. intros [= ?]. done.
    - intros [[= -> ->]|[-> [Hv _]]]; done. }
  rewrite size_union, size_singleton; [done|].
  apply disjoint_singleton_l. intros [_ Hd]%elem_of_filter. set_solver.
Qed.

(** X5.  [toggle_post_upvote] keeps the persisted counter of the post in
    step with the upvote relation: called with the post as it is in the
    table and with a counter equal to the number of upvotes, it leaves the
    counter equal to the number of upvotes, which has gone up by one, down
    by one, or (when the call is refused) stayed; the returned object is
    the row of the table. *)
Theorem toggle_post_upvote_counter db ch post u :
  posts db !! post_id post = Some post →
  upvote_counter_consistent db (post_id post) →
  let done := toggle_post_upvote db ch post u in
  upvote_counter_consistent done.1.1.2 (post_id post)
  ∧ posts done.1.1.2 !! post_id post = Some done.2
  ∧ (done.1.1.1.1 = true →
       upvotes_count done.1.1.2 (post_id post) = S (upvotes_count db (post_id post)))
  ∧ (done.1.1.1.1 = false →
       done.1.1.2 = db
       ∨ S (upvotes_count done.1.1.2 (post_id post)) = upvotes_count db (post_id post)).
Proof.
  intros Hrow Hcons done. subst done.
  assert (upvote_count_cache post = Z.of_nat (upvotes_count db (post_id post))) as Hc.
  { unfold upvote_counter_consistent, persisted_upvote_count in Hcons.
    rewrite Hrow in Hcons. by injection Hcons. }
  unfold toggle_post_upvote.
  destruct (match membership_status ch !! (post_community_id post, u) with
            | Some e => (entry_truthy e, ch)
            | None => _
            end) as [is_member ch1].
  destruct (negb (is_member || is_creator_of_post_community db post u)); simpl.
  { split_and!; [done|done|done|by left]. }
  unfold upvote_counter_consistent, persisted_upvote_count.
  destruct (bool_decide ((post_id post, u) ∈ upvotes db)) eqn:Hin; simpl.
  - apply bool_decide_eq_true in Hin.
    pose proof (upvotes_count_remove db (post_id post) u Hin) as Hrem.
    unfold upvotes_remove, update_post_upvote_count. simpl.
    rewrite alter_upvote_count_cache_twice, lookup_alter_eq, Hrow. simpl.
    assert (upvotes_count
              (set_posts
                 (alter (with_upvote_count_cache
                           (0 `max` (upvote_count_cache post - 1))) (post_id post))
                 (set_posts
                    (alter (with_upvote_count_cache
                              (Z.of_nat (upvotes_count
                                 (set_upvotes (λ s, s ∖ {[(post_id post, u)]}) db)
                                 (post_id post)))) (post_id post))
                    (set_upvotes (λ s, s ∖ {[(post_id post, u)]}) db))) (post_id post)
            = upvotes_count (set_upvotes (λ s, s ∖ {[(post_id post, u)]}) db) (post_id post))
      as -> by reflexivity.
    split_and!; [f_equal; lia|done|done|by right].
  - apply bool_decide_eq_false in Hin.
    pose proof (upvotes_count_add db (post_id post) u Hin) as Hadd.
    unfold upvotes_add, update_post_upvote_count. simpl.
    rewrite alter_upvote_count_cache_twice, lookup_alter_eq, Hrow. simpl.
    assert (upvotes_count
              (set_posts
                 (alter (with_upvote_count_cache (upvote_count_cache post + 1)) (post_id post))
                 (set_posts
                    (alter (with_upvote_count_cache
                              (Z.of_nat (upvotes_count
                                 (set_upvotes (λ s, {[(post_id post, u)]} ∪ s) db)
                                 (post_id post)))) (post_id post))
                    (set_upvotes (λ s, {[(post_id post, u)]} ∪ s) db))) (post_id post)
            = upvotes_count (set_upvotes (λ s, {[(post_id post, u)]} ∪ s) db) (post_id post))
      as -> by reflexivity.
    split_and!; [f_equal; lia|done|done|done].
Qed.

Lemma toggle_post_upvote_counter_witness :
  upvote_counter_consistent (toggle_post_upvote db_public_upvoted empty_cache p3_upvoted 9).1.1.2 8.
Proof.
  destruct (toggle_post_upvote_counter db_public_upvoted empty_cache p3_upvoted 9) as [H _];
    [reflexivity..|exact H].
Defined.

(** X6.  [Post.upvote_count] on a post whose persisted counter is 0, with
    no cached count: the property counts the relation, returns that
    number, stores it in the cache and, unless it is 0 too, in the
    persisted counter, so that the counter is afterwards the number of
    upvotes; the relation is not changed. *)
Theorem upvote_count_read_repair db ch post :
  posts db !! post_id post = Some post →
  upvote_count_cache post = 0 →
  post_upvote_count ch !! post_id post = None →
  let read := upvote_count db ch post in
  read.1.1.1 = Z.of_nat (upvotes_count db (post_id post))
  ∧ upvote_counter_consistent read.1.1.2 (post_id post)
  ∧ posts read.1.1.2 !! post_id post = Some read.2
  ∧ post_upvote_count read.1.2 !! post_id post = Some read.1.1.1
  ∧ upvotes read.1.1.2 = upvotes db.
Proof.
  intros Hrow Hzero Hmiss read. subst read. unfold upvote_count.
  rewrite Hzero, Hmiss. simpl.
  unfold upvote_counter_consistent, persisted_upvote_count.
  case_bool_decide as Hne; simpl.
  - rewrite lookup_alter_eq, Hrow, lookup_insert_eq. done.
  - rewrite Hrow, lookup_insert_eq. simpl.
    rewrite Hzero. unfold upvotes_count in *. simpl. by rewrite Hne.
Qed.

Lemma upvote_count_read_repair_witness :
  (upvote_count (set_upvotes (λ _, {[ (8%nat, 2%nat) ]}) db_public) empty_cache p3).1.1.1 = 1.
Proof.
  destruct (upvote_count_read_repair (set_upvotes (λ _, {[ (8%nat, 2%nat) ]}) db_public)
              empty_cache p3) as [H _]; [reflexivity..|].
  etrans; [exact H|]. reflexivity.
Defined.

(** X7.  After a call of [toggle_post_upvote] that was not refused, made
    with the post as it is in the table and a counter in step with the
    relation, [Post.upvote_count] on the returned object is the number of
    upvotes of the post: no stale cached count can be served, because
    [post.save] has deleted the key. *)
Theorem upvote_count_after_toggle db ch post u :
  posts db !! post_id post = Some post →
  upvote_counter_consistent db (post_id post) →
  let done := toggle_post_upvote db ch post u in
  done.1.1.1.2 ≠ "You must be a member of this community to upvote posts." →
  (upvote_count done.1.1.2 done.1.2 done.2).1.1.1
  = Z.of_nat (upvotes_count done.1.1.2 (post_id post)).
Proof.
  intros Hrow Hcons done Hok.
  destruct (toggle_post_upvote_counter db ch post u Hrow Hcons) as (Hcons' & Hrow' & _).
  fold done in Hcons', Hrow'.
  assert (post_id done.2 = post_id post ∧ post_upvote_count done.1.2 !! post_id post = None)
    as [Hid Hmiss].
  { subst done. revert Hok. unfold toggle_post_upvote.
    destruct (match membership_status ch !! (post_community_id post, u) with
              | Some e => (entry_truthy e, ch)
              | None => _
              end) as [is_member ch1].
    destruct (negb (is_member || is_creator_of_post_community db post u)); simpl; [done|].
    destruct (bool_decide ((post_id post, u) ∈ upvotes db)); simpl;
      intros _; by rewrite lookup_delete_eq. }
  assert (upvote_count_cache done.2 = Z.of_nat (upvotes_count done.1.1.2 (post_id post))) as Hc.
  { unfold upvote_counter_consistent, persisted_upvote_count in Hcons'.
    rewrite Hrow' in Hcons'. by injection Hcons'. }
  unfold upvote_count. rewrite Hid, Hmiss.
  destruct (0 <? upvote_count_cache done.2) eqn:Hpos; simpl; [done|].
  by case_bool_decide.
Qed.

Lemma upvote_count_after_toggle_witness :
  (upvote_count (toggle_post_upvote db_public_upvoted empty_cache p3_upvoted 9).1.1.2
                (toggle_post_upvote db_public_upvoted empty_cache p3_upvoted 9).1.2
                (toggle_post_upvote db_public_upvoted empty_cache p3_upvoted 9).2).1.1.1 = 0.
Proof.
  rewrite (upvote_count_after_toggle db_public_upvoted empty_cache p3_upvoted 9);
    [reflexivity..|discriminate].
Defined.

Lemma with_is_pinned_same p : with_is_pinned (is_pinned p) p = p.
Proof. by destruct p. Qed.

(** X8.  Toggling the pin of a post twice, starting from the post as it is
    in the table, gives back the table and the object; in between only the
    [is_pinned] column of that row differs, and the two answers are
    "pinned" and "unpinned" in the order the first state decides. *)
Theorem toggle_post_pin_twice db ch post :
  posts db !! post_id post = Some post →
  let first := toggle_post_pin db ch post in
  let second := toggle_post_pin first.1.1.2 first.1.2 first.2 in
  first.1.1.1.1 = negb (is_pinned post)
  ∧ posts first.1.1.2 = <[post_id post := with_is_pinned (negb (is_pinned post)) post]> (posts db)
  ∧ posts first.1.1.2 !! post_id post = Some first.2
  ∧ second.1.1.1.1 = is_pinned post
  ∧ second.1.1.2 = db
  ∧ second.2 = post.
Proof.
  intros Hrow first second.
  assert (∀ d c p, (toggle_post_pin d c p).1.1.1.1 = negb (is_pinned p)
                   ∧ (toggle_post_pin d c p).2 = with_is_pinned (negb (is_pinned p)) p
                   ∧ (toggle_post_pin d c p).1.1.2
                     = set_posts (alter (with_is_pinned (negb (is_pinned p))) (post_id p)) d)
    as Hstep.
  { intros d c p. unfold toggle_post_pin. simpl. by destruct (is_pinned p). }
  destruct (Hstep db ch post) as (H1 & H2 & H3). fold first in H1, H2, H3.
  destruct (Hstep first.1.1.2 first.1.2 first.2) as (H4 & H5 & H6). fold second in H4, H5, H6.
  assert (posts first.1.1.2
          = <[post_id post := with_is_pinned (negb (is_pinned post)) post]> (posts db)) as Hp.
  { rewrite H3. simpl. apply map_eq. intros i.
    destruct (decide (post_id post = i)) as [<-|Hne].
    - by rewrite lookup_alter_eq, lookup_insert_eq, Hrow.
    - by rewrite lookup_alter_ne, lookup_insert_ne. }
  split_and!.
  - done.
  - done.
  - by rewrite Hp, lookup_insert_eq, H2.
  - rewrite H4, H2. simpl. apply negb_involutive.
  - rewrite H6, H2. simpl. rewrite negb_involutive. apply DB_eq; simpl; rewrite ?H3; try done.
    simpl. apply map_eq. intros i. destruct (decide (post_id post = i)) as [<-|Hne].
    + rewrite !lookup_alter_eq, Hrow. simpl. f_equal. by destruct post.
    + by rewrite !lookup_alter_ne.
  - rewrite H5, H2. simpl. rewrite negb_involutive. by destruct post.
Qed.

Lemma toggle_post_pin_twice_witness :
  (toggle_post_pin (toggle_post_pin db_public empty_cache p3).1.1.2
                   (toggle_post_pin db_public empty_cache p3).1.2
                   (toggle_post_pin db_public empty_cache p3).2).1.1.2 = db_public.
Proof.
  destruct (toggle_post_pin_twice db_public empty_cache p3) as (_ & _ & _ & _ & H & _);
    [reflexivity|exact H].
Defined.


(** ** Membership changes and the caches *)

(** What a successful [leave_community] leaves behind: the row is gone and
    so are the five cache entries of the user. *)
Lemma leave_community_success db ch u c :
  (leave_community db ch u c).1.1.1 = true →
  memberships (leave_community db ch u c).1.2 = delete (u, community_id c) (memberships db)
  ∧ membership_status (leave_community db ch u c).2 !! (community_id c, u) = None
  ∧ post_creation_permission (leave_community db ch u c).2 !! (community_id c, u) = None
  ∧ user_memberships (leave_community db ch u c).2 !! u = None
  ∧ user_admin_memberships (leave_community db ch u c).2 !! u = None
  ∧ ∃ f, communities (leave_community db ch u c).1.2
         = (λ m, alter (with_member_count_cache (f m)) (community_id c) m)
             (alter (with_member_count_cache
                       (Z.of_nat (approved_member_count
                                    (set_memberships (delete (u, community_id c)) db)
                                    (community_id (instance_community db c)))))
                    (community_id (instance_community db c)) (communities db))
         ∨ communities (leave_community db ch u c).1.2
           = alter (with_member_count_cache
                      (Z.of_nat (approved_member_count
                                   (set_memberships (delete (u, community_id c)) db)
                                   (community_id (instance_community db c)))))
                   (community_id (instance_community db c)) (communities db).
Proof.
  unfold leave_community.
  destruct (memberships db !! (u, community_id c)) as [m|]; [|done].
  destruct (_ && _); [done|]. intros _. simpl.
  destruct (0 <? member_count_cache c); simpl;
    (split_and!; [done|by rewrite lookup_delete_eq..|]).
  - exists (λ _, 0 `max` (member_count_cache c - 1)). by left.
  - exists (λ _, 0). by right.
Qed.

Lemma creator_after_counter_update (m : gmap nat Community) n k j :
  creator_id <$> alter (with_member_count_cache n) k m !! j = creator_id <$> m !! j.
Proof.
  destruct (decide (k = j)) as [->|Hne].
  - rewrite lookup_alter_eq. by destruct (m !! j).
  - by rewrite lookup_alter_ne.
Qed.

Lemma private_after_counter_update (m : gmap nat Community) n k j :
  is_private <$> alter (with_member_count_cache n) k m !! j = is_private <$> m !! j.
Proof.
  destruct (decide (k = j)) as [->|Hne].
  - rewrite lookup_alter_eq. by destruct (m !! j).
  - by rewrite lookup_alter_ne.
Qed.

Lemma creators_after_leave db ch u c j :
  (leave_community db ch u c).1.1.1 = true →
  creator_id <$> communities (leave_community db ch u c).1.2 !! j
  = creator_id <$> communities db !! j.
Proof.
  intros Hok.
  destruct (leave_community_success db ch u c Hok) as (_ & _ & _ & _ & _ & f & [-> | ->]).
  - by rewrite !creator_after_counter_update.
  - by rewrite creator_after_counter_update.
Qed.

(** X10.  Once [leave_community] has succeeded, the bulk post query for
    the user who left is exactly the decision table over the [Membership]
    rows of the new store, whatever the cache held before: the user's two
    cached id lists were deleted. *)
Theorem get_post_queryset_after_leave db ch u c community_slug post_type search p :
  (leave_community db ch u c).1.1.1 = true →
  let db' := (leave_community db ch u c).1.2 in
  let ch' := (leave_community db ch u c).2 in
  memberships db' !! (u, community_id c) = None
  ∧ (p ∈ (get_post_queryset db' ch' (Some u) community_slug post_type search).1
     ↔ p ∈ base_queryset db' community_slug post_type search
       ∧ visible_by_rows db' (Some u) p = true).
Proof.
  intros Hok db' ch'.
  destruct (leave_community_success db ch u c Hok) as (Hm & _ & _ & Hum & Huam & _).
  split.
  - subst db'. by rewrite Hm, lookup_delete_eq.
  - apply get_post_queryset_fresh. subst ch'. split; intros l Hl; congruence.
Qed.

Lemma get_post_queryset_after_leave_witness :
  memberships (leave_community db_scenario_A cache_stale_admin 1 c1).1.2
    !! (1%nat, community_id c1) = None
  ∧ (p2 ∈ (get_post_queryset (leave_community db_scenario_A cache_stale_admin 1 c1).1.2
                             (leave_community db_scenario_A cache_stale_admin 1 c1).2
                             (Some 1%nat) (Some "c") None None).1
     ↔ p2 ∈ base_queryset (leave_community db_scenario_A cache_stale_admin 1 c1).1.2
                          (Some "c") None None
       ∧ visible_by_rows (leave_community db_scenario_A cache_stale_admin 1 c1).1.2
                         (Some 1%nat) p2 = true).
Proof.
  apply (get_post_queryset_after_leave db_scenario_A cache_stale_admin 1 c1
           (Some "c") None None p2).
  reflexivity.
Defined.

(** X11.  Leaving takes effect at once for posting and upvoting: after a
    successful [leave_community] by a user who is not the creator,
    [validate_post_creation] raises [PermissionDenied] and
    [toggle_post_upvote] on a post of the community is refused and changes
    nothing, whatever verdicts the cache held before the user left. *)
Theorem leave_community_revokes db ch u c post :
  (leave_community db ch u c).1.1.1 = true →
  creator_id c ≠ u →
  post_community_id post = community_id c →
  is_creator_of_post_community db post u = false →
  let db' := (leave_community db ch u c).1.2 in
  let ch' := (leave_community db ch u c).2 in
  (validate_post_creation db' ch' u c).1.1
  = PermissionDenied "You must be a member of this community to post."
  ∧ (validate_post_creation db' ch' u c).1.2 = db'
  ∧ (toggle_post_upvote db' ch' post u).1.1.1
    = (false, "You must be a member of this community to upvote posts.")
  ∧ (toggle_post_upvote db' ch' post u).1.1.2 = db'.
Proof.
  intros Hok Hcr Hpost Hnc db' ch'.
  destruct (leave_community_success db ch u c Hok) as (Hm & Hms & Hpcp & _).
  assert (memberships db' !! (u, community_id c) = None) as Hrow
    by (subst db'; by rewrite Hm, lookup_delete_eq).
  assert (is_creator_of_post_community db' post u = false) as Hnc'.
  { unfold is_creator_of_post_community in *.
    pose proof (creators_after_leave db ch u c (post_community_id post) Hok) as E.
    fold db' in E.
    destruct (communities db' !! post_community_id post) as [c'|],
             (communities db !! post_community_id post) as [c''|]; simpl in E; try done.
    injection E as ->. done. }
  split_and!.
  - unfold validate_post_creation. subst ch'. rewrite Hpcp.
    by rewrite (bool_decide_eq_false_2 _ Hcr), Hrow.
  - unfold validate_post_creation. subst ch'. rewrite Hpcp.
    by rewrite (bool_decide_eq_false_2 _ Hcr), Hrow.
  - apply toggle_post_upvote_refuses; [done| |left].
    + unfold approved_membership_exists. by rewrite Hpost, Hrow.
    + subst ch'. by rewrite Hpost.
  - apply toggle_post_upvote_refuses; [done| |left].
    + unfold approved_membership_exists. by rewrite Hpost, Hrow.
    + subst ch'. by rewrite Hpost.
Qed.

Lemma leave_community_revokes_witness :
  (validate_post_creation (leave_community db_scenario_A empty_cache 1 c1).1.2
                          (leave_community db_scenario_A empty_cache 1 c1).2 1 c1).1.1
  = PermissionDenied "You must be a member of this community to post."
  ∧ (toggle_post_upvote (leave_community db_scenario_A empty_cache 1 c1).1.2
                        (leave_community db_scenario_A empty_cache 1 c1).2 p2 1).1.1.1
    = (false, "You must be a member of this community to upvote posts.").
Proof.
  destruct (leave_community_revokes db_scenario_A empty_cache 1 c1 p2) as (H1 & _ & H2 & _);
    [reflexivity|discriminate|reflexivity|reflexivity|].
  exact (conj H1 H2).
Defined.
